(** * Jobsheet 11 PBO: the expense ledger of [manajer_anggaran.py]

    A shallow embedding of [DatabaseManager] (the storage gateway) and
    [AnggaranHarian] (the expense ledger), together with the part of the
    SQLite engine, of [datetime] and of [pandas] that the six SQL statements
    and the two formatting steps of the ledger exercise.

    Conventions of the embedding.
    - The database file is a value of type [db]; every method takes the file
      before the call and returns the file after it (explicit state passing).
    - A call that can raise returns a [py A]: [Return a] or [Raise e].
    - Storage failures (file locked, disk error, ...) are not determined by
      the program: each gateway call takes a flag [fault] that says whether
      [sqlite3] raises [sqlite3.Error] during that call.
    - [jumlah] (SQLite [REAL], a Python [float]) is embedded as an exact
      integer amount in [Z]: sums are exact sums.  The rounding of IEEE
      doubles is outside the embedding. *)

From Stdlib Require Import ZArith Lia Ascii String List Permutation Sorted.
From stdpp Require Import base decidable option list gmap strings pretty sorting.

#[local] Open Scope Z_scope.

(** ** Python values *)

(** The exceptions that can occur along the modelled paths. *)
Inductive exn :=
  | Sqlite3Error      (* sqlite3.Error and its subclasses *)
  | OverflowError     (* a Python int that does not fit SQLite's INTEGER *)
  | TypeError
  | IndexError.

(** A Python computation: it returns a value or raises. *)
Inductive py (A : Type) :=
  | Return (a : A)
  | Raise (e : exn).
Arguments Return {A} a.
Arguments Raise {A} e.

Global Instance py_bind : MBind py := fun A B (k : A → py B) (m : py A) =>
  match m with
  | Return a => k a
  | Raise e => Raise e
  end.

(** One cell of a fetched row, as [sqlite3] hands it to Python:
    NULL is [None], INTEGER an [int], REAL a [float], TEXT a [str]. *)
Inductive cell :=
  | CNone
  | CInt (z : Z)
  | CFloat (x : Z)
  | CStr (s : string).

(** A fetched row is a Python tuple of cells. *)
Definition tuple := list cell.

(** What [execute_query] can return: [None], a [bool], an [int]
    ([cursor.lastrowid]), one row ([fetchone]) or a list of rows
    ([fetchall]). *)
Inductive pyval :=
  | VNone
  | VBool (b : bool)
  | VInt (z : Z)
  | VTuple (t : tuple)
  | VList (l : list tuple).

(** Python truth value testing. *)
Definition truthy (v : pyval) : bool :=
  match v with
  | VNone => false
  | VBool b => b
  | VInt z => negb (z =? 0)
  | VTuple t => match t with [] => false | _ => true end
  | VList l => match l with [] => false | _ => true end
  end.

(** Truth value of an optional [str] argument ([fetch]). *)
Definition truthy_str (s : option string) : bool :=
  match s with
  | None => false
  | Some s => match s with EmptyString => false | _ => true end
  end.

(** [t[i]] on a tuple. *)
Definition tuple_item (t : tuple) (i : nat) : py cell :=
  match t !! i with
  | Some c => Return c
  | None => Raise IndexError
  end.

(** [v[i]] on a value returned by the gateway.  The ledger subscripts the
    result of a [fetch='one'] call, which is [None] or a tuple; on any other
    value the subscript is taken to raise. *)
Definition getitem (v : pyval) (i : nat) : py cell :=
  match v with
  | VTuple t => tuple_item t i
  | _ => Raise TypeError
  end.

Global Instance cell_eq_dec : EqDecision cell.
Proof. solve_decision. Defined.

Definition cell_encode (c : cell) : unit + Z + Z + string :=
  match c with
  | CNone => inl (inl (inl tt))
  | CInt z => inl (inl (inr z))
  | CFloat x => inl (inr x)
  | CStr s => inr s
  end.

Definition cell_decode (s : unit + Z + Z + string) : cell :=
  match s with
  | inl (inl (inl _)) => CNone
  | inl (inl (inr z)) => CInt z
  | inl (inr x) => CFloat x
  | inr s => CStr s
  end.

Global Instance cell_countable : Countable cell.
Proof.
  refine (inj_countable' cell_encode cell_decode _).
  intros []; reflexivity.
Defined.

(** A Python [dict] whose keys and values are cells. *)
Abbreviation dict := (gmap cell cell).

(** ** Calendar dates: [datetime.date] *)

Record date := mk_date { year : Z; month : Z; day : Z }.

Definition is_leap (y : Z) : bool :=
  (y mod 4 =? 0) && negb (y mod 100 =? 0) || (y mod 400 =? 0).

Definition days_in_month (y m : Z) : Z :=
  match m with
  | 1 | 3 | 5 | 7 | 8 | 10 | 12 => 31
  | 4 | 6 | 9 | 11 => 30
  | 2 => if is_leap y then 29 else 28
  | _ => 0
  end.

(** The invariant of a [datetime.date] object: MINYEAR = 1, MAXYEAR = 9999. *)
Definition valid_date (d : date) : bool :=
  (1 <=? year d) && (year d <=? 9999) &&
  (1 <=? month d) && (month d <=? 12) &&
  (1 <=? day d) && (day d <=? days_in_month (year d) (month d)).

(** Chronological comparison. *)
Definition date_compare (a b : date) : comparison :=
  match year a ?= year b with
  | Eq => match month a ?= month b with
          | Eq => day a ?= day b
          | c => c
          end
  | c => c
  end.

(** The character of a decimal digit. *)
Definition digit_char (n : Z) : ascii := ascii_of_N (Z.to_N (48 + n)).

(** The value of a decimal digit character. *)
Definition digit_val (c : ascii) : option Z :=
  let n := Z.of_N (N_of_ascii c) in
  if (48 <=? n) && (n <=? 57) then Some (n - 48) else None.

(** Zero-padded decimal fields of width 2 and 4, as [%m], [%d] and [%Y]. *)
Definition pad2 (n : Z) : list ascii :=
  [digit_char (n / 10 mod 10); digit_char (n mod 10)].

Definition pad4 (n : Z) : list ascii :=
  [digit_char (n / 1000 mod 10); digit_char (n / 100 mod 10);
   digit_char (n / 10 mod 10); digit_char (n mod 10)].

Definition dash : ascii := "-"%char.

(** [d.strftime('%Y-%m-%d')]: the text stored in column [tanggal]. *)
Definition strftime_Ymd (d : date) : string :=
  string_of_list_ascii
    (pad4 (year d) ++ [dash] ++ pad2 (month d) ++ [dash] ++ pad2 (day d)).

(** [d.strftime('%d-%m-%Y')]: the text shown in the history table. *)
Definition strftime_dmY (d : date) : string :=
  string_of_list_ascii
    (pad2 (day d) ++ [dash] ++ pad2 (month d) ++ [dash] ++ pad4 (year d)).

Definition number2 (a b : ascii) : option Z :=
  x ← digit_val a; y ← digit_val b; Some (10 * x + y).

Definition number4 (a b c e : ascii) : option Z :=
  x ← number2 a b; y ← number2 c e; Some (100 * x + y).

(** The dates a pandas nanosecond [Timestamp] can hold:
    1677-09-21 up to 2262-04-11. *)
Definition timestamp_min : date := mk_date 1677 9 21.
Definition timestamp_max : date := mk_date 2262 4 11.

Definition in_timestamp_bounds (d : date) : bool :=
  match date_compare timestamp_min d, date_compare d timestamp_max with
  | Gt, _ | _, Gt => false
  | _, _ => true
  end.

(** Reading a text in the layout [YYYY-MM-DD]. *)
Definition parse_Ymd (s : string) : option date :=
  match list_ascii_of_string s with
  | [y1; y2; y3; y4; s1; m1; m2; s2; d1; d2] =>
      if decide (s1 = dash ∧ s2 = dash) then
        y ← number4 y1 y2 y3 y4;
        m ← number2 m1 m2;
        d ← number2 d1 d2;
        Some (mk_date y m d)
      else None
  | _ => None
  end.

(** [pd.to_datetime] on one text of the column, restricted to the layout the
    ledger writes ([YYYY-MM-DD]).  [None] stands for the exception pandas
    raises: the text is not a calendar date, or the date is outside the
    nanosecond bounds.  Texts in other layouts are treated as not parseable;
    the ledger never writes one. *)
Definition to_datetime (s : string) : option date :=
  dt ← parse_Ymd s;
  if valid_date dt && in_timestamp_bounds dt then Some dt else None.

(** ** Formatting an amount: [f"{x:,.0f}".replace(",", ".")] *)

(** Thousands separators, on the digits in reverse order. *)
Fixpoint group3 (rev_digits : list ascii) : list ascii :=
  match rev_digits with
  | a :: b :: c :: ((_ :: _) as rest) => a :: b :: c :: ","%char :: group3 rest
  | l => l
  end.

(** [f"{x:,.0f}"] for a whole amount [x]. *)
Definition format_comma (x : Z) : list ascii :=
  let digits := list_ascii_of_string (pretty (Z.abs x)) in
  let body := rev (group3 (rev digits)) in
  if x <? 0 then "-"%char :: body else body.

(** [s.replace(",", ".")]. *)
Definition replace_comma (s : list ascii) : list ascii :=
  (fun c => if decide (c = ","%char) then "."%char else c) <$> s.

(** The lambda applied to column [Jumlah]. *)
Definition format_jumlah (x : Z) : string :=
  string_of_list_ascii (replace_comma (format_comma x)).

(** ** The database file: table [transaksi]

    [CREATE TABLE transaksi (id INTEGER PRIMARY KEY AUTOINCREMENT,
     deskripsi TEXT NOT NULL, jumlah REAL NOT NULL, kategori TEXT NOT NULL,
     tanggal DATE NOT NULL)]                                              *)

(** One stored row.  Column [id] is field [id_transaksi]. *)
Record row := mk_row {
  id_transaksi : Z;
  deskripsi : string;
  jumlah : Z;
  kategori : string;
  tanggal : string
}.

Global Instance row_eq_dec : EqDecision row.
Proof. solve_decision. Defined.

(** The table: its rows in rowid order of insertion, and the counter that
    AUTOINCREMENT keeps in [sqlite_sequence] (the largest rowid ever used). *)
Record table := mk_table { rows : list row; seq : Z }.

(** The database file: [None] while table [transaksi] does not exist. *)
Definition db := option table.

(** The rows of a database file. *)
Definition db_rows (d : db) : list row :=
  match d with
  | Some t => rows t
  | None => []
  end.

(** The statements the ledger sends, each with its bound parameters. *)
Inductive statement :=
  | CREATE_TABLE_IF_NOT_EXISTS
  | INSERT_INTO (p_deskripsi : string) (p_jumlah : Z) (p_kategori : string)
                (p_tanggal : string)
  | SELECT_ORDER_BY_tanggal_id
  | DELETE_WHERE_id (p_id : Z)
  | SELECT_SUM (p_tanggal : option string)
  | SELECT_SUM_GROUP_BY_kategori (p_tanggal : option string).

(** A cursor after [execute]. *)
Record cursor := mk_cursor { lastrowid : option Z; result_set : list tuple }.

(** The cursor of a statement that inserts nothing and selects nothing. *)
Definition no_rows : cursor := mk_cursor None [].

(** The range of SQLite's INTEGER. *)
Definition max_int64 : Z := 9223372036854775807.
Definition min_int64 : Z := -9223372036854775808.

Definition fits_int64 (z : Z) : bool := (min_int64 <=? z) && (z <=? max_int64).

(** The largest rowid in the table, 0 for an empty table. *)
Definition max_rowid (rs : list row) : Z :=
  foldr (fun r m => Z.max (id_transaksi r) m) 0 rs.

(** The rowid AUTOINCREMENT picks: one more than the largest rowid that
    ever existed in the table. *)
Definition next_rowid (t : table) : Z := Z.max (seq t) (max_rowid (rows t)) + 1.

(** [WHERE tanggal = ?], or no WHERE clause. *)
Definition where_tanggal (p : option string) (r : row) : bool :=
  match p with
  | None => true
  | Some t => bool_decide (tanggal r = t)
  end.

(** [SUM(jumlah)] over rows. *)
Definition sum_jumlah (rs : list row) : Z :=
  foldr (fun r acc => jumlah r + acc) 0 rs.

(** [ORDER BY tanggal DESC, id DESC]: does [a] come before [b]?  Texts are
    compared bytewise (collation BINARY). *)
Definition precedes (a b : row) : bool :=
  match String.compare (tanggal a) (tanggal b) with
  | Gt => true
  | Lt => false
  | Eq => id_transaksi b <=? id_transaksi a
  end.

(** Sorting by insertion.  The engine's own sorting procedure is not part
    of the program; under the primary key the sorted result does not depend
    on it (lemma [sorted_unique] below). *)
Fixpoint insert_sorted (r : row) (l : list row) : list row :=
  match l with
  | [] => [r]
  | x :: l' => if precedes r x then r :: l else x :: insert_sorted r l'
  end.

(** The rows in the order of [ORDER BY tanggal DESC, id DESC]. *)
Definition order_by (rs : list row) : list row := foldr insert_sorted [] rs.

(** The row of [SELECT id, tanggal, deskripsi, kategori, jumlah]. *)
Definition select_columns (r : row) : tuple :=
  [CInt (id_transaksi r); CStr (tanggal r); CStr (deskripsi r);
   CStr (kategori r); CFloat (jumlah r)].

(** [SELECT SUM(jumlah) ...]: always one row; NULL when no row matches. *)
Definition select_sum (p : option string) (rs : list row) : list tuple :=
  match filter (fun r => where_tanggal p r = true) rs with
  | [] => [[CNone]]
  | matching => [[CFloat (sum_jumlah matching)]]
  end.

(** [SELECT kategori, SUM(jumlah) ... GROUP BY kategori]: one row per
    category that occurs among the matching rows.  SQL leaves the order of
    the groups open; here it is the order of last occurrence. *)
Definition select_sum_group_by (p : option string) (rs : list row) : list tuple :=
  let matching := filter (fun r => where_tanggal p r = true) rs in
  (fun k => [CStr k;
             CFloat (sum_jumlah (filter (fun r => kategori r = k) matching))])
    <$> remove_dups (kategori <$> matching).

(** [cursor.execute(sql, params)] on a fresh connection, followed by the
    commit of [__exit__].  With [fault] the call raises [sqlite3.Error] and
    the file is unchanged.  Any statement other than CREATE raises
    [sqlite3.OperationalError] while the table does not exist; an INSERT
    raises (SQLITE_FULL) once the largest rowid has been used; binding an
    [int] outside 64 bits raises [OverflowError]. *)
Definition cursor_execute (fault : bool) (sql : statement) (d : db)
  : py (db * cursor) :=
  if fault then Raise Sqlite3Error else
  match sql, d with
  | CREATE_TABLE_IF_NOT_EXISTS, None => Return (Some (mk_table [] 0), no_rows)
  | CREATE_TABLE_IF_NOT_EXISTS, Some _ => Return (d, no_rows)
  | _, None => Raise Sqlite3Error
  | INSERT_INTO desk jml kat tgl, Some t =>
      let i := next_rowid t in
      if i <=? max_int64 then
        Return (Some (mk_table (rows t ++ [mk_row i desk jml kat tgl]) i),
                mk_cursor (Some i) [])
      else Raise Sqlite3Error
  | SELECT_ORDER_BY_tanggal_id, Some t =>
      Return (d, mk_cursor None (select_columns <$> order_by (rows t)))
  | DELETE_WHERE_id i, Some t =>
      if fits_int64 i then
        Return (Some (mk_table (filter (fun r => id_transaksi r ≠ i) (rows t))
                               (seq t)),
                no_rows)
      else Raise OverflowError
  | SELECT_SUM p, Some t => Return (d, mk_cursor None (select_sum p (rows t)))
  | SELECT_SUM_GROUP_BY_kategori p, Some t =>
      Return (d, mk_cursor None (select_sum_group_by p (rows t)))
  end.

(** [cursor.fetchone()] and [cursor.fetchall()]. *)
Definition fetchone (c : cursor) : pyval :=
  match result_set c with
  | [] => VNone
  | t :: _ => VTuple t
  end.

Definition fetchall (c : cursor) : pyval := VList (result_set c).

(** ** [DatabaseManager] *)

(** [DatabaseManager.execute_query(sql, params, is_insert, fetch)]. *)
Definition execute_query (fault : bool) (sql : statement) (is_insert : bool)
    (fetch : option string) (d : db) : db * py pyval :=
  match cursor_execute fault sql d with
  | Return (d', cur) =>
      if is_insert then
        (d', Return (match lastrowid cur with Some i => VInt i | None => VNone end))
      else if bool_decide (fetch = Some "one"%string) then (d', Return (fetchone cur))
      else if bool_decide (fetch = Some "all"%string) then (d', Return (fetchall cur))
      else (d', Return (VBool true))
  | Raise Sqlite3Error =>
      (d, Return (if is_insert || truthy_str fetch then VNone else VBool false))
  | Raise e => (d, Raise e)
  end.

(** ** [AnggaranHarian] *)

(** Modelled from the spec: class [Transaksi] of [model.py], which is not
    among the sources.  The candidate value object carries a description,
    an amount, a category and a date; the ledger reads the attributes
    [deskripsi], [jumlah], [kategori] and [tanggal] of its argument [tx]. *)
Record Transaksi := mk_Transaksi {
  tx_deskripsi : string;
  tx_jumlah : Z;
  tx_kategori : string;
  tx_tanggal : date
}.

(** [AnggaranHarian._buat_tabel_jika_tidak_ada()]: the result of the gateway
    is dropped. *)
Definition _buat_tabel_jika_tidak_ada (fault : bool) (d : db) : db * py unit :=
  let '(d', r) := execute_query fault CREATE_TABLE_IF_NOT_EXISTS false None d in
  (d', _ ← r; Return ()).

(** [AnggaranHarian.__init__()]: the file after the constructor has run. *)
Definition AnggaranHarian_init (fault : bool) (d : db) : db :=
  fst (_buat_tabel_jika_tidak_ada fault d).

(** The gateway call of [tambah_transaksi]: [last_id]. *)
Definition tambah_transaksi_last_id (tx : Transaksi) (fault : bool) (d : db)
  : db * py pyval :=
  let sql := INSERT_INTO (tx_deskripsi tx) (tx_jumlah tx) (tx_kategori tx)
                         (strftime_Ymd (tx_tanggal tx)) in
  execute_query fault sql true None d.

(** [AnggaranHarian.tambah_transaksi(tx)]: [last_id is not None]. *)
Definition tambah_transaksi (tx : Transaksi) (fault : bool) (d : db)
  : db * py bool :=
  let '(d', r) := tambah_transaksi_last_id tx fault d in
  (d', last_id ← r;
       Return (match last_id with VNone => false | _ => true end)).

(** One line of the history table: index [ID] and the four columns. *)
Record baris := mk_baris {
  ID : Z;
  Tanggal : string;
  Deskripsi : string;
  Kategori : string;
  Jumlah : string
}.

(** The [DataFrame] of the history: its lines in order. *)
Definition DataFrame := list baris.

(** One fetched record as a line of the frame: column [Tanggal] goes through
    [pd.to_datetime(...).dt.strftime('%d-%m-%Y')], column [Jumlah] through
    the formatting lambda.  [None] stands for an exception raised inside the
    [try] block. *)
Definition baris_dari_record (t : tuple) : option baris :=
  match t with
  | [CInt i; CStr tgl; CStr desk; CStr kat; CFloat jml] =>
      dt ← to_datetime tgl;
      Some (mk_baris i (strftime_dmY dt) desk kat (format_jumlah jml))
  | _ => None
  end.

(** [AnggaranHarian.get_dataframe_transaksi()]: [None] is Python's [None]. *)
Definition get_dataframe_transaksi (fault : bool) (d : db)
  : db * option DataFrame :=
  let '(d', r) := execute_query fault SELECT_ORDER_BY_tanggal_id false
                                (Some "all"%string) d in
  (d', match r with
       | Return VNone => None                 (* if records is None *)
       | Return (VList records) => mapM baris_dari_record records
       | Return _ => None                     (* DataFrame(...) raises *)
       | Raise _ => None                      (* except Exception *)
       end).

(** [AnggaranHarian.hapus_transaksi(id_transaksi)]: the result of the
    gateway, as it is. *)
Definition hapus_transaksi (i : Z) (fault : bool) (d : db) : db * py pyval :=
  execute_query fault (DELETE_WHERE_id i) false None d.

(** The parameter of the two aggregate statements: [if tanggal:] holds for
    every [datetime.date]. *)
Definition param_tanggal (tgl : option date) : option string :=
  match tgl with
  | Some t => Some (strftime_Ymd t)
  | None => None
  end.

(** [AnggaranHarian.hitung_total_pengeluaran(tanggal)]:
    [result[0] if result and result[0] is not None else 0.0]. *)
Definition hitung_total_pengeluaran (tgl : option date) (fault : bool) (d : db)
  : db * py cell :=
  let '(d', r) := execute_query fault (SELECT_SUM (param_tanggal tgl)) false
                                (Some "one"%string) d in
  (d', result ← r;
       if truthy result then
         x ← getitem result 0;
         match x with
         | CNone => Return (CFloat 0)
         | _ => Return x
         end
       else Return (CFloat 0)).

(** [{row[0]: row[1] for row in records}]. *)
Fixpoint dict_comprehension (records : list tuple) (acc : dict) : py dict :=
  match records with
  | [] => Return acc
  | row :: rest =>
      k ← tuple_item row 0;
      v ← tuple_item row 1;
      dict_comprehension rest (<[k := v]> acc)
  end.

(** [AnggaranHarian.get_pengeluaran_per_kategori(tanggal)]:
    [{...} if records else {}]. *)
Definition get_pengeluaran_per_kategori (tgl : option date) (fault : bool)
    (d : db) : db * py dict :=
  let '(d', r) := execute_query fault
                    (SELECT_SUM_GROUP_BY_kategori (param_tanggal tgl)) false
                    (Some "all"%string) d in
  (d', records ← r;
       if truthy records then
         match records with
         | VList l => dict_comprehension l ∅
         | _ => Raise TypeError
         end
       else Return ∅).

(** ** Sequences of ledger calls *)

(** One call of the caller: add or delete, with the storage condition met
    during the call. *)
Inductive op :=
  | Add (tx : Transaksi) (fault : bool)
  | Delete (i : Z) (fault : bool).

(** The file after one call, and the identifier the store assigned during
    it (the [last_id] of [tambah_transaksi]), if any. *)
Definition step (o : op) (d : db) : db * list Z :=
  match o with
  | Add tx fault =>
      match tambah_transaksi_last_id tx fault d with
      | (d', Return (VInt i)) => (d', [i])
      | (d', _) => (d', [])
      end
  | Delete i fault => (fst (hapus_transaksi i fault d), [])
  end.

(** The file after a sequence of calls, and the identifiers assigned along
    the way, in order. *)
Fixpoint run (ops : list op) (d : db) : db * list Z :=
  match ops with
  | [] => (d, [])
  | o :: rest =>
      let '(d1, ids1) := step o d in
      let '(d2, ids2) := run rest d1 in
      (d2, ids1 ++ ids2)
  end.

(** ** The properties of the specification, in its words *)

(** The rows a date filter selects: all rows without a filter, the rows
    whose date is the filter date otherwise. *)
Definition matches_filter (tgl : option date) (r : row) : Prop :=
  match tgl with
  | None => True
  | Some t => tanggal r = strftime_Ymd t
  end.

Global Instance matches_filter_dec tgl r : Decision (matches_filter tgl r).
Proof. destruct tgl; simpl; apply _. Defined.

(** The arithmetic sum of the amounts of rows. *)
Definition amount_sum (rs : list row) : Z := foldr Z.add 0 (jumlah <$> rs).

(** The summed amount of a category: absent for a category without rows. *)
Definition category_total (rs : list row) (k : string) : option Z :=
  match filter (fun r => kategori r = k) rs with
  | [] => None
  | l => Some (amount_sum l)
  end.

(** The amount a cell of the mapping holds. *)
Definition cell_amount (c : cell) : Z :=
  match c with
  | CFloat x => x
  | _ => 0
  end.

(** The sum of the values of a mapping. *)
Definition dict_total (m : dict) : Z :=
  map_fold (fun _ v acc => cell_amount v + acc) 0 m.

(** The PRIMARY KEY constraint: no two rows share an id. *)
Definition primary_key_ok (rs : list row) : Prop :=
  NoDup (id_transaksi <$> rs).

(** Every stored date is a text pandas reads back. *)
Definition tanggal_ok (rs : list row) : Prop :=
  Forall (fun r => is_Some (to_datetime (tanggal r))) rs.



(** The four modes of the gateway, as arguments of [execute_query]. *)
Inductive mode := mode_plain | mode_insert | mode_fetch_one | mode_fetch_all.

Definition mode_is_insert (m : mode) : bool :=
  match m with mode_insert => true | _ => false end.

Definition mode_fetch (m : mode) : option string :=
  match m with
  | mode_fetch_one => Some "one"%string
  | mode_fetch_all => Some "all"%string
  | _ => None
  end.

(** The failure sentinel of a mode: false for plain, absent otherwise. *)
Definition sentinel (m : mode) : pyval :=
  match m with
  | mode_plain => VBool false
  | _ => VNone
  end.

(** The scenario of the specification. *)
Definition lunch : Transaksi :=
  mk_Transaksi "Lunch" 25000 "Food" (mk_date 2024 1 10).
Definition bus : Transaksi :=
  mk_Transaksi "Bus" 5000 "Transport" (mk_date 2024 1 10).

(** A new file, after the constructor. *)
Definition fresh : db := AnggaranHarian_init false None.

(** The file of the scenario: lunch, then bus. *)
Definition scenario : db :=
  fst (tambah_transaksi bus false (fst (tambah_transaksi lunch false fresh))).

(** The sum of [f k] over the keys [ks]. *)
Definition sum_over {A} (f : A → Z) (ks : list A) : Z :=
  foldr (fun k acc => f k + acc) 0 ks.

(** After an identifier [last] has been assigned, the counter of the table
    stands at or above it and above every stored id. *)
Definition counter_above (last : Z) (d : db) : Prop :=
  match d with
  | Some t => last ≤ seq t ∧ max_rowid (rows t) ≤ seq t
  | None => False
  end.


(** A third transaction, on a later day. *)
Definition dinner : Transaksi :=
  mk_Transaksi "Dinner" 40000 "Food" (mk_date 2024 1 12).

(** A file with three rows on two days: lunch, dinner, bus. *)
Definition three_rows : table :=
  mk_table [mk_row 1 "Lunch" 25000 "Food" "2024-01-10";
            mk_row 2 "Dinner" 40000 "Food" "2024-01-12";
            mk_row 3 "Bus" 5000 "Transport" "2024-01-10"] 3.

(** A call whose date, if it adds a row, is a calendar date pandas can
    hold. *)
Definition op_date_ok (o : op) : Prop :=
  match o with
  | Add tx _ =>
      valid_date (tx_tanggal tx) = true
      ∧ in_timestamp_bounds (tx_tanggal tx) = true
  | Delete _ _ => True
  end.

(** Every stored id fits SQLite's 64-bit INTEGER and is positive. *)
Definition rowid_ok (rs : list row) : Prop :=
  Forall (fun r => 1 ≤ id_transaksi r ≤ max_int64) rs.

(** ** Further notions used to describe the ledger *)

Global Instance date_eq_dec : EqDecision date.
Proof. solve_decision. Defined.

(** The row [tambah_transaksi] writes for [tx] under the id [i]. *)
Definition tx_row (i : Z) (tx : Transaksi) : row :=
  mk_row i (tx_deskripsi tx) (tx_jumlah tx) (tx_kategori tx)
         (strftime_Ymd (tx_tanggal tx)).

(** Does a date filter select a transaction of the date [d]? *)
Definition filter_selects (tgl : option date) (d : date) : Prop :=
  match tgl with
  | None => True
  | Some t => t = d
  end.

Global Instance filter_selects_dec tgl d : Decision (filter_selects tgl d).
Proof. destruct tgl; simpl; apply _. Defined.




(** ** [format_rp] of [main_app.py] *)

(** [s[:-3]]: the text without its last three characters. *)
Definition drop_last3 (s : string) : string :=
  let l := list_ascii_of_string s in
  string_of_list_ascii (take (length l - 3) l).

(** [format_rp(angka)].  Whether the locale [id_ID] is installed, and what
    [locale.currency] prints under it, is not determined by the program:
    [locale_currency] is [None] when [locale.setlocale] raises
    [locale.Error], and otherwise gives the text of
    [locale.currency(x, grouping=True, symbol='Rp ')].  [angka or 0] turns
    [None] into 0. *)
Definition format_rp (locale_currency : option (Z → string))
    (angka : option Z) : string :=
  let x := default 0 angka in
  match locale_currency with
  | Some currency => drop_last3 (currency x)
  | None => "Rp " +:+ format_jumlah x
  end.

(** A text without its [.] characters. *)
Definition strip_dots (s : string) : string :=
  string_of_list_ascii
    (filter (fun c => c ≠ "."%char) (list_ascii_of_string s)).

(** ** The pages of [main_app.py] that write to the ledger

    What a page shows is a list of events, in order; the widgets of the
    page are its inputs.  [st.rerun()] ends the run of the script, so
    nothing follows a [Rerun]. *)

Inductive event :=
  | Warning (text : string)          (* st.warning *)
  | Success (text : string)          (* st.success *)
  | Error (text : string)            (* st.error *)
  | Info (text : string)             (* st.info *)
  | Table (df : DataFrame)           (* st.dataframe *)
  | CacheClear                       (* st.cache_data.clear() *)
  | Rerun                            (* st.rerun() *)
  | Uncaught (e : exn).              (* an exception leaves the page *)

(** The widgets of the form of [halaman_input]: the text input (a [str],
    empty when nothing was typed), the select box, the number input
    ([None] when left empty), the date input and the submit button. *)
Record form_input := mk_form_input {
  f_deskripsi : string;
  f_kategori : string;
  f_jumlah : option Z;
  f_tanggal : date;
  f_submitted : bool
}.

(** [halaman_input(anggaran)]. *)
Definition halaman_input (inp : form_input) (fault : bool) (d : db)
  : db * list event :=
  if f_submitted inp then
    if decide (f_deskripsi inp = EmptyString) then              (* not deskripsi *)
      (d, [Warning "Deskripsi wajib diisi!"])
    else
      match f_jumlah inp with
      | None => (d, [Warning "Jumlah wajib diisi dan harus lebih dari nol!"])
      | Some jml =>
          if jml <=? 0 then
            (d, [Warning "Jumlah wajib diisi dan harus lebih dari nol!"])
          else
            let tx := mk_Transaksi (f_deskripsi inp) jml (f_kategori inp)
                                   (f_tanggal inp) in
            match tambah_transaksi tx fault d with
            | (d', Return true) =>
                (d', [Success "Transaksi berhasil disimpan!"; CacheClear; Rerun])
            | (d', Return false) => (d', [Error "Gagal menyimpan transaksi."])
            | (d', Raise e) => (d', [Uncaught e])
            end
      end
  else (d, []).

(** The text of [f"Transaksi dengan ID {id_transaksi} berhasil dihapus."]. *)
Definition pesan_berhasil_dihapus (i : Z) : string :=
  ("Transaksi dengan ID " +:+ pretty i +:+ " berhasil dihapus.")%string.

(** The text of [f"Gagal menghapus transaksi dengan ID {id_transaksi}.
    Pastikan ID valid."]. *)
Definition pesan_gagal_menghapus (i : Z) : string :=
  ("Gagal menghapus transaksi dengan ID " +:+ pretty i
   +:+ ". Pastikan ID valid.")%string.

(** What [halaman_riwayat] shows for the history: an error when the listing
    is [None], a note when the frame is empty, the table otherwise. *)
Definition tampil_riwayat (df : option DataFrame) : event :=
  match df with
  | None => Error "Gagal mengambil data riwayat."
  | Some [] => Info "Belum ada transaksi yang tercatat."
  | Some l => Table l
  end.

(** [halaman_riwayat(anggaran)]: the widgets are the refresh button, the
    number input of the id ([None] when left empty) and the confirm button;
    [fault_list] and [fault_hapus] are the storage conditions of the two
    gateway calls of the page. *)
Definition halaman_riwayat (refresh : bool) (id_input : option Z)
    (confirm : bool) (fault_list fault_hapus : bool) (d : db)
  : db * list event :=
  if refresh then (d, [CacheClear; Rerun]) else
  let '(d1, df) := get_dataframe_transaksi fault_list d in
  let shown := tampil_riwayat df in
  if confirm then
    match id_input with
    | Some i =>
        match hapus_transaksi i fault_hapus d1 with
        | (d2, Return v) =>
            if truthy v then
              (d2, [shown; Success (pesan_berhasil_dihapus i); CacheClear; Rerun])
            else (d2, [shown; Error (pesan_gagal_menghapus i)])
        | (d2, Raise e) => (d2, [shown; Uncaught e])
        end
    | None =>
        (d1, [shown;
              Warning "Mohon masukkan ID transaksi yang valid untuk dihapus."])
    end
  else (d1, [shown]).

(** One run of the script on one of the two pages. *)
Inductive interaction :=
  | OnInput (inp : form_input) (fault : bool)
  | OnRiwayat (refresh : bool) (id_input : option Z) (confirm : bool)
              (fault_list fault_hapus : bool).

Definition ui_step (a : interaction) (d : db) : db * list event :=
  match a with
  | OnInput inp fault => halaman_input inp fault d
  | OnRiwayat refresh id_input confirm fl fh =>
      halaman_riwayat refresh id_input confirm fl fh d
  end.

(** The file after a sequence of runs of the script. *)
Definition ui_run (l : list interaction) (d : db) : db :=
  foldl (fun d a => fst (ui_step a d)) d l.

(** Every stored row has a description and a positive amount. *)
Definition rows_validated (rs : list row) : Prop :=
  Forall (fun r => deskripsi r ≠ EmptyString ∧ 0 < jumlah r) rs.

(** ** The connection of [DatabaseManager]

    [execute_query] above gives the result of a gateway call and the file
    after it.  The definitions below follow the same call through
    [__enter__] and [__exit__] and keep track of [self.conn] as well, with
    the storage fault placed at one of three points. *)

(** A [sqlite3.Connection] object. *)
Inductive connection := Open | Closed.

(** [self.conn]: [None] until [__enter__] has succeeded once. *)
Definition manager := option connection.

(** Where [sqlite3] raises [sqlite3.Error] during a gateway call. *)
Record faults := mk_faults {
  at_connect : bool;      (* sqlite3.connect(self.db_name) *)
  at_execute : bool;      (* cursor.execute(sql, params) *)
  at_commit : bool        (* self.conn.commit() *)
}.

(** [DatabaseManager.__enter__()]: when [connect] raises, the assignment to
    [self.conn] does not happen. *)
Definition __enter__ (fault : bool) (m : manager) : manager * py unit :=
  if fault then (m, Raise Sqlite3Error) else (Some Open, Return ()).

(** [DatabaseManager.__exit__(...)]: [if self.conn:] holds for every
    connection object; when [commit] raises, [close] is not reached. *)
Definition __exit__ (fault : bool) (m : manager) : manager * py unit :=
  match m with
  | Some _ =>
      if fault then (m, Raise Sqlite3Error) else (Some Closed, Return ())
  | None => (m, Return ())
  end.

(** The [except sqlite3.Error] clause of [execute_query]. *)
Definition except_sqlite3 (is_insert : bool) (fetch : option string)
    (r : py pyval) : py pyval :=
  match r with
  | Raise Sqlite3Error =>
      Return (if is_insert || truthy_str fetch then VNone else VBool false)
  | _ => r
  end.

(** [DatabaseManager.execute_query(sql, params, is_insert, fetch)] with its
    connection: [self.conn] after the call, the file after the call and the
    result.  The file is [None] when [commit] raised: what the file then
    holds is decided by the engine's transaction mode, not by the program.
    An exception of [__enter__] skips the body and [__exit__]; an exception
    of [__exit__] replaces the outcome of the body. *)
Definition execute_query_conn (f : faults) (sql : statement)
    (is_insert : bool) (fetch : option string) (m : manager) (d : db)
  : manager * option db * py pyval :=
  match __enter__ (at_connect f) m with
  | (m1, Raise e) => (m1, Some d, except_sqlite3 is_insert fetch (Raise e))
  | (m1, Return _) =>
      let '(pending, body) :=
        match cursor_execute (at_execute f) sql d with
        | Return (d', cur) =>
            (d',
             if is_insert then
               Return (match lastrowid cur with
                       | Some i => VInt i
                       | None => VNone
                       end)
             else if bool_decide (fetch = Some "one"%string)
                  then Return (fetchone cur)
             else if bool_decide (fetch = Some "all"%string)
                  then Return (fetchall cur)
             else Return (VBool true))
        | Raise e => (d, Raise e)
        end in
      match __exit__ (at_commit f) m1 with
      | (m2, Raise e) => (m2, None, except_sqlite3 is_insert fetch (Raise e))
      | (m2, Return _) => (m2, Some pending, except_sqlite3 is_insert fetch body)
      end
  end.

(** * Properties *)

(** ** Dates and their texts *)

Lemma digit_val_digit_char (n : Z) :
  0 ≤ n ≤ 9 → digit_val (digit_char n) = Some n.
Proof.
  intros H.
  assert (E : n = 0 ∨ n = 1 ∨ n = 2 ∨ n = 3 ∨ n = 4 ∨ n = 5 ∨ n = 6 ∨ n = 7
              ∨ n = 8 ∨ n = 9) by lia.
  repeat (destruct E as [E|E]; [subst n; reflexivity|]).
  subst n; reflexivity.
Qed.


Lemma mod10_digit (n : Z) : 0 ≤ n mod 10 ≤ 9.
Proof. pose proof (Z.mod_pos_bound n 10). lia. Qed.

Lemma number2_pad2 (n : Z) :
  0 ≤ n < 100 →
  number2 (digit_char (n / 10 mod 10)) (digit_char (n mod 10)) = Some n.
Proof.
  intros H. unfold number2.
  rewrite !digit_val_digit_char by apply mod10_digit. simpl.
  f_equal. Z.div_mod_to_equations. lia.
Qed.


Lemma number4_pad4 (n : Z) :
  0 ≤ n < 10000 →
  number4 (digit_char (n / 1000 mod 10)) (digit_char (n / 100 mod 10))
          (digit_char (n / 10 mod 10)) (digit_char (n mod 10)) = Some n.
Proof.
  intros H. unfold number4, number2.
  rewrite !digit_val_digit_char by apply mod10_digit. simpl.
  f_equal. Z.div_mod_to_equations. lia.
Qed.


(** The ranges of the three fields of a valid date. *)
Lemma valid_date_fields (d : date) :
  valid_date d = true →
  1 ≤ year d ≤ 9999 ∧ 1 ≤ month d ≤ 12 ∧ 1 ≤ day d ≤ 31.
Proof.
  unfold valid_date. rewrite !andb_true_iff, !Z.leb_le.
  intros (((((H1 & H2) & H3) & H4) & H5) & H6).
  assert (days_in_month (year d) (month d) ≤ 31).
  { unfold days_in_month.
    repeat match goal with
           | |- context [match ?p with _ => _ end] => destruct p
           end; lia. }
  lia.
Qed.

Lemma parse_Ymd_strftime (d : date) :
  valid_date d = true → parse_Ymd (strftime_Ymd d) = Some d.
Proof.
  intros Hv. apply valid_date_fields in Hv as (Hy & Hm & Hd).
  unfold parse_Ymd, strftime_Ymd.
  rewrite list_ascii_of_string_of_list_ascii. unfold pad4, pad2. simpl.
  rewrite number4_pad4 by lia. simpl.
  rewrite !number2_pad2 by lia. simpl.
  now destruct d.
Qed.


Lemma to_datetime_strftime (d : date) :
  valid_date d = true → in_timestamp_bounds d = true →
  to_datetime (strftime_Ymd d) = Some d.
Proof.
  intros Hv Hb. unfold to_datetime.
  rewrite parse_Ymd_strftime by exact Hv. simpl. now rewrite Hv, Hb.
Qed.



(** ** Sums and filters *)

Lemma sum_jumlah_amount_sum (rs : list row) : sum_jumlah rs = amount_sum rs.
Proof.
  unfold sum_jumlah, amount_sum.
  induction rs as [|r rs IH]; simpl; [reflexivity | now rewrite IH].
Qed.

Lemma where_tanggal_matches tgl r :
  where_tanggal (param_tanggal tgl) r = true ↔ matches_filter tgl r.
Proof.
  destruct tgl as [t|]; simpl; [|tauto].
  now rewrite bool_decide_eq_true.
Qed.

Lemma filter_where_matches tgl (rs : list row) :
  filter (fun r => where_tanggal (param_tanggal tgl) r = true) rs
  = filter (matches_filter tgl) rs.
Proof. apply list_filter_iff. intros r. apply where_tanggal_matches. Qed.

Lemma amount_sum_cons r (l : list row) :
  amount_sum (r :: l) = jumlah r + amount_sum l.
Proof. reflexivity. Qed.


Lemma hitung_total_pengeluaran_eq (d : db) (tgl : option date) :
  hitung_total_pengeluaran tgl false d
  = (d, Return (CFloat (amount_sum (filter (matches_filter tgl) (db_rows d))))).
Proof.
  unfold hitung_total_pengeluaran, execute_query.
  destruct d as [t|]; simpl; [|reflexivity].
  unfold fetchone, select_sum; simpl.
  rewrite filter_where_matches.
  destruct (filter (matches_filter tgl) (rows t)) as [|r l] eqn:E; simpl.
  - reflexivity.
  - now rewrite sum_jumlah_amount_sum.
Qed.



(** ** The gateway *)

Lemma max_rowid_ge (rs : list row) (r : row) :
  r ∈ rs → id_transaksi r ≤ max_rowid rs.
Proof.
  induction rs as [|x rs IH]; intros Hx; [inversion Hx|].
  unfold max_rowid; simpl. fold (max_rowid rs).
  apply elem_of_cons in Hx as [->|Hx]; [lia|]. specialize (IH Hx). lia.
Qed.

Lemma next_rowid_fresh (t : table) : next_rowid t ∉ id_transaksi <$> rows t.
Proof.
  intros Hin. apply list_elem_of_fmap in Hin as (r & Hid & Hr).
  apply max_rowid_ge in Hr. unfold next_rowid in Hid. lia.
Qed.

Lemma cursor_execute_insert t desk jml kat tgl :
  next_rowid t ≤ max_int64 →
  cursor_execute false (INSERT_INTO desk jml kat tgl) (Some t)
  = Return (Some (mk_table (rows t ++ [mk_row (next_rowid t) desk jml kat tgl])
                           (next_rowid t)),
            mk_cursor (Some (next_rowid t)) []).
Proof.
  intros H. unfold cursor_execute.
  destruct (next_rowid t <=? max_int64) eqn:E; [reflexivity|].
  apply Z.leb_gt in E. lia.
Qed.

(** C9: when the storage call of a gateway call fails, [execute_query]
    returns the failure sentinel of its mode (absent for insert and the two
    fetch modes, false for plain mode) and leaves the file as it was; it
    never lets a storage exception through; and a successful INSERT in insert
    mode returns the identifier the store has just assigned to the new row. *)
Theorem execute_query_sentinel (fault : bool) (sql : statement) (m : mode)
    (d : db) :
  (cursor_execute fault sql d = Raise Sqlite3Error →
   execute_query fault sql (mode_is_insert m) (mode_fetch m) d
     = (d, Return (sentinel m)))
  ∧ snd (execute_query fault sql (mode_is_insert m) (mode_fetch m) d)
      ≠ Raise Sqlite3Error
  ∧ (∀ t desk jml kat tgl,
       d = Some t → sql = INSERT_INTO desk jml kat tgl →
       fault = false → next_rowid t ≤ max_int64 →
       ∃ t', execute_query fault sql (mode_is_insert mode_insert)
                           (mode_fetch mode_insert) d
               = (Some t', Return (VInt (next_rowid t)))
             ∧ rows t' = rows t ++ [mk_row (next_rowid t) desk jml kat tgl]
             ∧ next_rowid t ∉ id_transaksi <$> rows t).
Proof.
  split; [|split].
  - intros Hfail. unfold execute_query. rewrite Hfail.
    destruct m; reflexivity.
  - unfold execute_query.
    destruct (cursor_execute fault sql d) as [[d' cur]|e].
    + destruct m; simpl; discriminate.
    + destruct e; simpl; discriminate.
  - intros t desk jml kat tgl -> -> -> Hfull.
    eexists. unfold execute_query.
    rewrite cursor_execute_insert by exact Hfull. simpl.
    split; [reflexivity|]. split; [reflexivity|].
    apply next_rowid_fresh.
Qed.

Lemma execute_query_sentinel_witness :
  execute_query true (DELETE_WHERE_id 7) (mode_is_insert mode_plain)
                (mode_fetch mode_plain) scenario
    = (scenario, Return (VBool false))
  ∧ ∃ t', execute_query false (INSERT_INTO "Lunch" 25000 "Food" "2024-01-10")
                        true None fresh
            = (Some t', Return (VInt 1))
          ∧ rows t' = [mk_row 1 "Lunch" 25000 "Food" "2024-01-10"]
          ∧ 1 ∉ @nil Z.
Proof.
  split.
  - apply (proj1 (execute_query_sentinel true (DELETE_WHERE_id 7) mode_plain
                    scenario)).
    reflexivity.
  - apply (proj2 (proj2 (execute_query_sentinel false
             (INSERT_INTO "Lunch" 25000 "Food" "2024-01-10") mode_insert fresh))
             (mk_table [] 0) "Lunch"%string 25000 "Food"%string
             "2024-01-10"%string);
      first [reflexivity | vm_compute; discriminate].
Defined.

(** ** Failure at the aggregate queries and at the listing *)

Lemma get_dataframe_transaksi_empty t :
  rows t = [] → get_dataframe_transaksi false (Some t) = (Some t, Some []).
Proof.
  intros H. unfold get_dataframe_transaksi, execute_query. simpl.
  rewrite H. reflexivity.
Qed.

(** C10: when the storage call fails, [hitung_total_pengeluaran] returns 0.0
    and [get_pengeluaran_per_kategori] returns the empty mapping, which is
    what they return without a failure when no row matches the filter; the
    listing, on a table without rows, tells the two cases apart. *)
Theorem aggregates_flatten_failure (tgl : option date) (d : db) :
  hitung_total_pengeluaran tgl true d = (d, Return (CFloat 0))
  ∧ get_pengeluaran_per_kategori tgl true d = (d, Return ∅)
  ∧ (filter (matches_filter tgl) (db_rows d) = [] →
     hitung_total_pengeluaran tgl false d = hitung_total_pengeluaran tgl true d
     ∧ get_pengeluaran_per_kategori tgl false d
       = get_pengeluaran_per_kategori tgl true d)
  ∧ (∀ t, d = Some t → rows t = [] →
     snd (get_dataframe_transaksi true d) = None
     ∧ snd (get_dataframe_transaksi false d) = Some []).
Proof.
  split; [reflexivity|]. split; [reflexivity|]. split.
  - intros Hnone. split.
    + rewrite hitung_total_pengeluaran_eq, Hnone. reflexivity.
    + unfold get_pengeluaran_per_kategori, execute_query.
      destruct d as [t|]; simpl; [|reflexivity].
      unfold fetchall, select_sum_group_by; simpl.
      rewrite filter_where_matches. simpl in Hnone. rewrite Hnone. reflexivity.
  - intros t -> Hrows. split; [reflexivity|].
    now rewrite get_dataframe_transaksi_empty.
Qed.

Lemma aggregates_flatten_failure_witness :
  (hitung_total_pengeluaran (Some (mk_date 2024 1 11)) false scenario
     = hitung_total_pengeluaran (Some (mk_date 2024 1 11)) true scenario
   ∧ get_pengeluaran_per_kategori (Some (mk_date 2024 1 11)) false scenario
     = get_pengeluaran_per_kategori (Some (mk_date 2024 1 11)) true scenario)
  ∧ (snd (get_dataframe_transaksi true fresh) = None
     ∧ snd (get_dataframe_transaksi false fresh) = Some []).
Proof.
  split.
  - apply (proj1 (proj2 (proj2 (aggregates_flatten_failure
             (Some (mk_date 2024 1 11)) scenario)))).
    vm_compute. reflexivity.
  - apply (proj2 (proj2 (proj2 (aggregates_flatten_failure None fresh)))
             (mk_table [] 0)); reflexivity.
Defined.

(** C7: when the fetch of the listing fails, [get_dataframe_transaksi]
    returns [None]; on a table without rows it returns the empty frame; the
    two results differ, so a caller can tell a read error from no data. *)
Theorem get_dataframe_transaksi_failure_marker (fault : bool) (d : db)
    (t : table)
    (Hfail : cursor_execute fault SELECT_ORDER_BY_tanggal_id d
             = Raise Sqlite3Error)
    (Hempty : rows t = []) :
  get_dataframe_transaksi fault d = (d, None)
  ∧ get_dataframe_transaksi false (Some t) = (Some t, Some [])
  ∧ snd (get_dataframe_transaksi fault d)
    ≠ snd (get_dataframe_transaksi false (Some t)).
Proof.
  assert (H1 : get_dataframe_transaksi fault d = (d, None)).
  { unfold get_dataframe_transaksi, execute_query. now rewrite Hfail. }
  assert (H2 := get_dataframe_transaksi_empty t Hempty).
  split; [exact H1|]. split; [exact H2|].
  rewrite H1, H2. discriminate.
Qed.

Lemma get_dataframe_transaksi_failure_marker_witness :
  get_dataframe_transaksi true scenario = (scenario, None)
  ∧ get_dataframe_transaksi false fresh = (fresh, Some [])
  ∧ snd (get_dataframe_transaksi true scenario)
    ≠ snd (get_dataframe_transaksi false fresh).
Proof.
  apply (get_dataframe_transaksi_failure_marker true scenario (mk_table [] 0));
    reflexivity.
Defined.

(** ** Deleting *)

Lemma filter_all_true {A} (P : A → Prop) `{∀ x, Decision (P x)} (l : list A) :
  (∀ x, x ∈ l → P x) → filter P l = l.
Proof.
  induction l as [|x l IH]; intros Hall; [reflexivity|].
  rewrite filter_cons_True by (apply Hall; left).
  f_equal. apply IH. intros y Hy. apply Hall. now right.
Qed.

Lemma cursor_execute_delete fault i d d' c :
  cursor_execute fault (DELETE_WHERE_id i) d = Return (d', c) →
  fault = false ∧ fits_int64 i = true ∧
  ∃ t, d = Some t ∧
       d' = Some (mk_table (filter (fun r => id_transaksi r ≠ i) (rows t)) (seq t)).
Proof.
  unfold cursor_execute. destruct fault; [discriminate|].
  destruct d as [t|]; [|discriminate].
  destruct (fits_int64 i); [|discriminate].
  intros [= <- <-]. eauto.
Qed.

(** C5: for every id, whether or not a row carries it, [hapus_transaksi]
    returns [True] whenever the DELETE statement runs without a storage
    error; when no row carries the id, the file, and with it every total,
    is as before. *)
Theorem hapus_transaksi_true (fault : bool) (i : Z) (d d' : db) (c : cursor)
    (Hexec : cursor_execute fault (DELETE_WHERE_id i) d = Return (d', c)) :
  hapus_transaksi i fault d = (d', Return (VBool true))
  ∧ ((∀ r, r ∈ db_rows d → id_transaksi r ≠ i) →
     d' = d
     ∧ ∀ tgl f, snd (hitung_total_pengeluaran tgl f d')
                = snd (hitung_total_pengeluaran tgl f d)).
Proof.
  split.
  - unfold hapus_transaksi, execute_query. rewrite Hexec. reflexivity.
  - intros Habsent.
    apply cursor_execute_delete in Hexec as (_ & _ & t & -> & ->).
    assert (E : filter (fun r => id_transaksi r ≠ i) (rows t) = rows t)
      by (apply filter_all_true; exact Habsent).
    rewrite E. destruct t; simpl. split; reflexivity.
Qed.

Lemma hapus_transaksi_true_witness :
  hapus_transaksi 999999 false scenario = (scenario, Return (VBool true))
  ∧ (scenario = scenario
     ∧ ∀ tgl f, snd (hitung_total_pengeluaran tgl f scenario)
                = snd (hitung_total_pengeluaran tgl f scenario)).
Proof.
  assert (H := hapus_transaksi_true false 999999 scenario scenario no_rows
                 eq_refl).
  destruct H as [H1 H2]. split; [exact H1|].
  apply H2. intros r Hr. vm_compute in Hr.
  apply elem_of_cons in Hr as [->|Hr]; [vm_compute; discriminate|].
  apply elem_of_cons in Hr as [->|Hr]; [vm_compute; discriminate|].
  inversion Hr.
Defined.

(** ** The mapping per category *)

Section per_kategori.
Variable F : string → cell.
Variable G : string → cell.

Lemma dict_comprehension_pairs (ks : list string) (acc : dict) :
  dict_comprehension ((fun k => [F k; G k]) <$> ks) acc
  = Return (foldl (fun m k => <[F k := G k]> m) acc ks).
Proof.
  revert acc. induction ks as [|k ks IH]; intros acc; [reflexivity|].
  simpl. apply IH.
Qed.

Lemma foldl_insert_list_to_map (ks : list string) :
  foldl (fun (m : dict) k => <[F k := G k]> m) ∅ ks
  = list_to_map ((fun k => (F k, G k)) <$> reverse ks).
Proof.
  induction ks as [|k ks IH] using rev_ind; [reflexivity|].
  rewrite foldl_app, reverse_app. simpl. now rewrite IH.
Qed.
End per_kategori.

Lemma sum_over_ext {A} (f g : A → Z) (l : list A) :
  (∀ k, f k = g k) → sum_over f l = sum_over g l.
Proof.
  intros E. unfold sum_over. induction l as [|x l IH]; simpl; [reflexivity|].
  now rewrite IH, E.
Qed.

(** The sum, over a duplicate-free list of categories, of an amount counted
    at the category of a row only, is that amount once if the category is
    in the list. *)
Lemma sum_over_indicator (c : string) (x : Z) (ks : list string) :
  NoDup ks → c ∈ ks →
  sum_over (fun k => if decide (c = k) then x else 0) ks = x.
Proof.
  induction 1 as [|k ks Hk Hnd IH]; intros Hin; [inversion Hin|].
  unfold sum_over. simpl. fold (sum_over (fun k => if decide (c = k) then x else 0) ks).
  destruct (decide (c = k)) as [->|Hne].
  - assert (E : sum_over (fun k0 => if decide (k = k0) then x else 0) ks = 0).
    { clear IH Hnd Hin. induction ks as [|k' ks IH]; [reflexivity|].
      unfold sum_over. simpl.
      fold (sum_over (fun k0 => if decide (k = k0) then x else 0) ks).
      destruct (decide (k = k')) as [->|_]; [exfalso; apply Hk; left|].
      rewrite IH; [reflexivity|]. intros H. apply Hk. now right. }
    rewrite E. lia.
  - apply elem_of_cons in Hin as [->|Hin]; [congruence|].
    rewrite (IH Hin). lia.
Qed.

(** The per-category sums split the sum of all rows: every row is counted
    in exactly one category. *)
Lemma sum_over_categories (rs : list row) (ks : list string) :
  NoDup ks → (∀ r, r ∈ rs → kategori r ∈ ks) →
  sum_over (fun k => amount_sum (filter (fun r => kategori r = k) rs)) ks
  = amount_sum rs.
Proof.
  intros Hnd. induction rs as [|r rs IH]; intros Hall.
  - clear. induction ks as [|k ks IH]; [reflexivity|].
    unfold sum_over in *. simpl. rewrite IH. reflexivity.
  - rewrite amount_sum_cons, <- IH by (intros r' Hr'; apply Hall; now right).
    rewrite <- (sum_over_indicator (kategori r) (jumlah r) ks Hnd)
      by (apply Hall; left).
    clear. induction ks as [|k ks IHk]; [reflexivity|].
    unfold sum_over in *. simpl. rewrite IHk.
    destruct (decide (kategori r = k)) as [E|E].
    + rewrite filter_cons_True by exact E. rewrite amount_sum_cons. lia.
    + rewrite filter_cons_False by exact E. lia.
Qed.

Lemma dict_total_list_to_map (g : string → Z) (ks : list string) :
  NoDup ks →
  dict_total (list_to_map ((fun k => (CStr k, CFloat (g k))) <$> ks))
  = sum_over g ks.
Proof.
  induction 1 as [|k ks Hk Hnd IH]; [reflexivity|].
  rewrite fmap_cons, list_to_map_cons. unfold dict_total in *.
  rewrite map_fold_insert_L.
  - rewrite IH. reflexivity.
  - intros. lia.
  - apply not_elem_of_list_to_map_1. rewrite <- list_fmap_compose.
    intros Hin. apply list_elem_of_fmap in Hin as (k' & E & Hk').
    simpl in E. injection E as ->. contradiction.
Qed.

Lemma get_pengeluaran_per_kategori_ok (tgl : option date) (t : table) :
  get_pengeluaran_per_kategori tgl false (Some t)
  = (Some t,
     dict_comprehension (select_sum_group_by (param_tanggal tgl) (rows t)) ∅).
Proof.
  unfold get_pengeluaran_per_kategori, execute_query. simpl.
  unfold fetchall. simpl.
  destruct (select_sum_group_by (param_tanggal tgl) (rows t)); reflexivity.
Qed.

Lemma category_total_present (rs : list row) (k : string) :
  k ∈ kategori <$> rs →
  category_total rs k = Some (amount_sum (filter (fun r => kategori r = k) rs)).
Proof.
  intros Hin. apply list_elem_of_fmap in Hin as (r & -> & Hr).
  unfold category_total.
  destruct (filter (fun r0 => kategori r0 = kategori r) rs) as [|x l] eqn:E;
    [|reflexivity].
  exfalso. eapply (filter_nil_not_elem_of _ rs r E); [reflexivity | exact Hr].
Qed.

Lemma category_total_absent (rs : list row) (k : string) :
  k ∉ kategori <$> rs → category_total rs k = None.
Proof.
  intros Hnot. unfold category_total.
  destruct (filter (fun r => kategori r = k) rs) as [|x l] eqn:E;
    [reflexivity|].
  exfalso. apply Hnot.
  assert (Hx : x ∈ filter (fun r => kategori r = k) rs) by (rewrite E; left).
  apply list_elem_of_filter in Hx as [<- Hx].
  apply list_elem_of_fmap. eauto.
Qed.


(** ** Identifiers *)

(** What one call does to the file. *)
Lemma step_cases (o : op) (d : db) :
  step o d = (d, [])
  ∨ (∃ t desk jml kat tgl,
       d = Some t ∧ next_rowid t ≤ max_int64 ∧
       step o d = (Some (mk_table
                           (rows t ++ [mk_row (next_rowid t) desk jml kat tgl])
                           (next_rowid t)),
                   [next_rowid t]))
  ∨ (∃ t i,
       d = Some t ∧
       step o d = (Some (mk_table
                           (filter (fun r => id_transaksi r ≠ i) (rows t))
                           (seq t)),
                   [])).
Proof.
  destruct o as [tx fault|i fault]; simpl.
  - unfold tambah_transaksi_last_id, execute_query, cursor_execute.
    destruct fault; [left; reflexivity|].
    destruct d as [t|]; [|left; reflexivity].
    destruct (next_rowid t <=? max_int64) eqn:E; [|left; reflexivity].
    right; left. apply Z.leb_le in E. simpl. eauto 10.
  - unfold hapus_transaksi, execute_query, cursor_execute.
    destruct fault; [left; reflexivity|].
    destruct d as [t|]; [|left; reflexivity].
    destruct (fits_int64 i); [|left; reflexivity].
    right; right. simpl. eauto.
Qed.

Lemma max_rowid_nonneg (l : list row) : 0 ≤ max_rowid l.
Proof. unfold max_rowid. induction l as [|x l IH]; simpl; lia. Qed.

Lemma max_rowid_app (l k : list row) :
  max_rowid (l ++ k) = Z.max (max_rowid l) (max_rowid k).
Proof.
  induction l as [|x l IH].
  - pose proof (max_rowid_nonneg k).
    change (max_rowid ([] ++ k)) with (max_rowid k).
    change (max_rowid []) with 0. lia.
  - change (max_rowid ((x :: l) ++ k))
      with (Z.max (id_transaksi x) (max_rowid (l ++ k))).
    change (max_rowid (x :: l)) with (Z.max (id_transaksi x) (max_rowid l)).
    rewrite IH. lia.
Qed.

Lemma max_rowid_snoc (t : table) (r : row) :
  id_transaksi r = next_rowid t →
  max_rowid (rows t ++ [r]) ≤ next_rowid t.
Proof.
  intros E. rewrite max_rowid_app.
  change (max_rowid [r]) with (Z.max (id_transaksi r) 0). rewrite E.
  pose proof (max_rowid_nonneg (rows t)). unfold next_rowid. lia.
Qed.

Lemma max_rowid_filter (P : row → Prop) `{∀ r, Decision (P r)} (l : list row) :
  max_rowid (filter P l) ≤ max_rowid l.
Proof.
  induction l as [|x l IH]; [reflexivity|].
  destruct (decide (P x)).
  - rewrite filter_cons_True by assumption.
    unfold max_rowid in *; simpl. lia.
  - rewrite filter_cons_False by assumption.
    unfold max_rowid in *; simpl. lia.
Qed.

Lemma step_primary_key (o : op) (d : db) :
  primary_key_ok (db_rows d) → primary_key_ok (db_rows (fst (step o d))).
Proof.
  intros Hpk.
  destruct (step_cases o d) as [E|[(t & desk & jml & kat & tgl & -> & _ & E)
                                  |(t & i & -> & E)]];
    rewrite E; simpl; [exact Hpk| |].
  - unfold primary_key_ok. rewrite fmap_app. simpl.
    apply NoDup_app. split; [exact Hpk|]. split.
    + intros x Hx Hx'. apply list_elem_of_singleton in Hx'. subst x.
      now apply next_rowid_fresh in Hx.
    + apply NoDup_singleton.
  - unfold primary_key_ok in *. simpl in Hpk.
    apply (sublist_NoDup _ (id_transaksi <$> rows t)); [exact Hpk|].
    apply fmap_sublist, sublist_filter.
Qed.

Lemma step_counter_above (o : op) (d : db) (last : Z) :
  counter_above last d →
  Forall (fun i => last < i) (snd (step o d))
  ∧ counter_above last (fst (step o d))
  ∧ Forall (fun i => counter_above i (fst (step o d))) (snd (step o d)).
Proof.
  intros Hc.
  destruct (step_cases o d) as [E|[(t & desk & jml & kat & tgl & -> & _ & E)
                                  |(t & i & -> & E)]];
    rewrite E; simpl; [auto| |].
  - destruct Hc as [H1 H2].
    assert (Hm : max_rowid (rows t ++ [mk_row (next_rowid t) desk jml kat tgl])
                 ≤ next_rowid t).
    { now apply max_rowid_snoc. }
    assert (Hn : last < next_rowid t) by (unfold next_rowid; lia).
    split; [|split].
    + constructor; [exact Hn | constructor].
    + split; [lia | exact Hm].
    + constructor; [|constructor]. split; [lia | exact Hm].
  - destruct Hc as [H1 H2].
    split; [constructor|]. split; [|constructor].
    split; [exact H1|].
    pose proof (max_rowid_filter (fun r => id_transaksi r ≠ i) (rows t)). lia.
Qed.

Lemma step_assigns_counter (o : op) (d : db) :
  Forall (fun i => counter_above i (fst (step o d))) (snd (step o d)).
Proof.
  destruct (step_cases o d) as [E|[(t & desk & jml & kat & tgl & -> & _ & E)
                                  |(t & i & -> & E)]];
    rewrite E; simpl; [constructor| |constructor].
  constructor; [|constructor]. split; [lia|]. now apply max_rowid_snoc.
Qed.

Lemma step_at_most_one (o : op) (d : db) :
  snd (step o d) = [] ∨ ∃ i, snd (step o d) = [i].
Proof.
  destruct (step_cases o d) as [E|[(t & desk & jml & kat & tgl & -> & _ & E)
                                  |(t & i & -> & E)]];
    rewrite E; simpl; eauto.
Qed.

Lemma run_cons (o : op) (ops : list op) (d : db) :
  run (o :: ops) d
  = (fst (run ops (fst (step o d))),
     snd (step o d) ++ snd (run ops (fst (step o d)))).
Proof.
  simpl. destruct (step o d) as [d1 ids1]. simpl.
  destruct (run ops d1) as [d2 ids2]. reflexivity.
Qed.

Lemma run_primary_key (ops : list op) (d : db) :
  primary_key_ok (db_rows d) → primary_key_ok (db_rows (fst (run ops d))).
Proof.
  revert d. induction ops as [|o ops IH]; intros d Hpk; [exact Hpk|].
  rewrite run_cons. simpl. apply IH, step_primary_key, Hpk.
Qed.

(** Once the counter stands at [last], every identifier assigned later is
    larger than [last], and they are assigned in increasing order. *)
Lemma run_counter_above (ops : list op) (d : db) (last : Z) :
  counter_above last d →
  Forall (fun i => last < i) (snd (run ops d))
  ∧ StronglySorted Z.lt (snd (run ops d)).
Proof.
  revert d last. induction ops as [|o ops IH]; intros d last Hc.
  - simpl. split; constructor.
  - rewrite run_cons. simpl.
    destruct (step_counter_above o d last Hc) as (Hgt & Hc' & Hnew).
    destruct (IH _ _ Hc') as [Hall Hsorted].
    split; [apply Forall_app; split; assumption|].
    destruct (step_at_most_one o d) as [E|[i E]]; rewrite E in *; simpl.
    + exact Hsorted.
    + constructor; [exact Hsorted|].
      apply Forall_inv in Hnew.
      apply (IH _ _ Hnew).
Qed.

Lemma run_increasing (ops : list op) (d : db) :
  StronglySorted Z.lt (snd (run ops d)).
Proof.
  revert d. induction ops as [|o ops IH]; intros d; [constructor|].
  rewrite run_cons. simpl.
  destruct (step_at_most_one o d) as [E|[i E]].
  - rewrite E. apply IH.
  - pose proof (step_assigns_counter o d) as Hnew. rewrite E in *. simpl.
    apply Forall_inv in Hnew.
    constructor; [apply IH|]. apply (run_counter_above _ _ _ Hnew).
Qed.

Lemma increasing_NoDup (l : list Z) : StronglySorted Z.lt l → NoDup l.
Proof.
  induction 1 as [|x l Hs IH Hx]; constructor; [|exact IH].
  intros Hin. rewrite Forall_forall in Hx. specialize (Hx x Hin). lia.
Qed.

(** C8: starting from any file that respects the primary key, after any
    sequence of additions and deletions (with or without storage faults)
    the stored ids are pairwise distinct, and the ids the store has assigned
    along the way are strictly increasing, hence pairwise distinct: an id is
    never assigned a second time, also after its row was deleted. *)
Theorem id_unique_never_reused (ops : list op) (d : db)
    (Hpk : primary_key_ok (db_rows d)) :
  primary_key_ok (db_rows (fst (run ops d)))
  ∧ StronglySorted Z.lt (snd (run ops d))
  ∧ NoDup (snd (run ops d)).
Proof.
  split; [apply run_primary_key, Hpk|].
  split; [apply run_increasing|].
  apply increasing_NoDup, run_increasing.
Qed.

Lemma id_unique_never_reused_witness :
  primary_key_ok
    (db_rows (fst (run [Add lunch false; Delete 1 false; Add bus false] fresh)))
  ∧ StronglySorted Z.lt
      (snd (run [Add lunch false; Delete 1 false; Add bus false] fresh))
  ∧ NoDup (snd (run [Add lunch false; Delete 1 false; Add bus false] fresh)).
Proof.
  apply (id_unique_never_reused
           [Add lunch false; Delete 1 false; Add bus false] fresh).
  vm_compute. constructor.
Defined.

Example id_after_delete :
  run [Add lunch false; Delete 1 false; Add bus false] fresh
  = (Some (mk_table [mk_row 2 "Bus" 5000 "Transport" "2024-01-10"] 2), [1; 2]).
Proof. reflexivity. Qed.

(** ** The order of the listing *)







Lemma insert_sorted_Permutation (r : row) (l : list row) :
  insert_sorted r l ≡ₚ r :: l.
Proof.
  induction l as [|x l IH]; simpl; [reflexivity|].
  destruct (precedes r x); [reflexivity|].
  rewrite IH. apply Permutation_swap.
Qed.

Lemma order_by_Permutation (rs : list row) : order_by rs ≡ₚ rs.
Proof.
  induction rs as [|r rs IH]; simpl; [reflexivity|].
  now rewrite insert_sorted_Permutation, IH.
Qed.







(** ** Stored texts and the chronological order *)







(** ** The listing *)

Lemma get_dataframe_transaksi_ok (t : table) :
  get_dataframe_transaksi false (Some t)
  = (Some t, mapM baris_dari_record (select_columns <$> order_by (rows t))).
Proof. reflexivity. Qed.




Lemma mapM_cons_inv {A B} (f : A → option B) (x : A) (l : list A)
    (k : list B) :
  mapM f (x :: l) = Some k →
  ∃ y k', k = y :: k' ∧ f x = Some y ∧ mapM f l = Some k'.
Proof.
  simpl. destruct (f x) as [y|]; [|discriminate]. simpl.
  destruct (mapM f l) as [k'|]; [|discriminate]. simpl.
  intros [= <-]. eauto.
Qed.







Lemma three_rows_tanggal_ok : tanggal_ok (rows three_rows).
Proof.
  unfold tanggal_ok, three_rows. simpl.
  repeat (apply Forall_cons; split; [eexists; vm_compute; reflexivity|]).
  apply Forall_nil. exact I.
Qed.

Lemma three_rows_primary_key_ok : primary_key_ok (rows three_rows).
Proof.
  unfold primary_key_ok, three_rows. simpl.
  apply (bool_decide_unpack (NoDup [1; 2; 3])). vm_compute. exact I.
Qed.

Example three_rows_reached :
  fst (run [Add lunch false; Add dinner false; Add bus false] fresh)
  = Some three_rows.
Proof. reflexivity. Qed.

Example three_rows_listing :
  snd (get_dataframe_transaksi false (Some three_rows))
  = Some [mk_baris 2 "12-01-2024" "Dinner" "Food" "40.000";
          mk_baris 3 "10-01-2024" "Bus" "Transport" "5.000";
          mk_baris 1 "10-01-2024" "Lunch" "Food" "25.000"].
Proof. reflexivity. Qed.


(** ** Adding, then listing *)

Lemma tambah_transaksi_ok (tx : Transaksi) (t : table) :
  next_rowid t ≤ max_int64 →
  tambah_transaksi tx false (Some t)
  = (Some (mk_table
             (rows t ++ [mk_row (next_rowid t) (tx_deskripsi tx) (tx_jumlah tx)
                                (tx_kategori tx) (strftime_Ymd (tx_tanggal tx))])
             (next_rowid t)),
     Return true).
Proof.
  intros H. unfold tambah_transaksi, tambah_transaksi_last_id, execute_query.
  now rewrite cursor_execute_insert by exact H.
Qed.


Lemma filter_ne_next_rowid (t : table) :
  filter (fun r => id_transaksi r ≠ next_rowid t) (rows t) = rows t.
Proof.
  apply filter_all_true. intros r Hr E.
  apply (next_rowid_fresh t). rewrite <- E. apply list_elem_of_fmap. eauto.
Qed.





(** ** Deleting a stored row *)

Lemma hapus_transaksi_ok (i : Z) (t : table) :
  fits_int64 i = true →
  hapus_transaksi i false (Some t)
  = (Some (mk_table (filter (fun r => id_transaksi r ≠ i) (rows t)) (seq t)),
     Return (VBool true)).
Proof.
  intros H. unfold hapus_transaksi, execute_query, cursor_execute.
  now rewrite H.
Qed.





Example hapus_dinner :
  hapus_transaksi 2 false (Some three_rows)
  = (Some (mk_table [mk_row 1 "Lunch" 25000 "Food" "2024-01-10";
                     mk_row 3 "Bus" 5000 "Transport" "2024-01-10"] 3),
     Return (VBool true))
  ∧ snd (hitung_total_pengeluaran None false (Some three_rows))
    = Return (CFloat 70000)
  ∧ snd (hitung_total_pengeluaran None false
           (fst (hapus_transaksi 2 false (Some three_rows))))
    = Return (CFloat 30000).
Proof. repeat split; reflexivity. Qed.

(** ** The scenario of the specification *)

Example scenario_file :
  scenario
  = Some (mk_table [mk_row 1 "Lunch" 25000 "Food" "2024-01-10";
                    mk_row 2 "Bus" 5000 "Transport" "2024-01-10"] 2).
Proof. reflexivity. Qed.

Example scenario_totals :
  snd (hitung_total_pengeluaran None false scenario) = Return (CFloat 30000)
  ∧ snd (hitung_total_pengeluaran (Some (mk_date 2024 1 10)) false scenario)
    = Return (CFloat 30000)
  ∧ snd (hitung_total_pengeluaran (Some (mk_date 2024 1 11)) false scenario)
    = Return (CFloat 0)
  ∧ snd (get_pengeluaran_per_kategori None false scenario)
    = Return (<[CStr "Food" := CFloat 25000]>
                (<[CStr "Transport" := CFloat 5000]> ∅)).
Proof. repeat split; vm_compute; reflexivity. Qed.

Example format_jumlah_samples :
  format_jumlah 25000 = "25.000"%string
  ∧ format_jumlah 999 = "999"%string
  ∧ format_jumlah 1234567 = "1.234.567"%string
  ∧ format_jumlah (-1500) = "-1.500"%string.
Proof. repeat split; reflexivity. Qed.

Example hapus_overflow :
  hapus_transaksi (2 ^ 63) false scenario = (scenario, Raise OverflowError).
Proof. reflexivity. Qed.

(** ** The states the ledger reaches

    The conditions under which the listing and the deletion are stated hold
    in every state reached from a new file. *)

Lemma step_tanggal_ok (o : op) (d : db) :
  op_date_ok o → tanggal_ok (db_rows d) →
  tanggal_ok (db_rows (fst (step o d))).
Proof.
  intros Ho Hd. destruct o as [tx fault|i fault]; simpl.
  - unfold tambah_transaksi_last_id, execute_query, cursor_execute.
    destruct fault; [exact Hd|].
    destruct d as [t|]; [|exact Hd].
    destruct (next_rowid t <=? max_int64); [|exact Hd]. simpl.
    apply Forall_app. split; [exact Hd|].
    constructor; [|constructor]. simpl.
    destruct Ho as [Hv Hb]. exists (tx_tanggal tx).
    now apply to_datetime_strftime.
  - unfold hapus_transaksi, execute_query, cursor_execute.
    destruct fault; [exact Hd|].
    destruct d as [t|]; [|exact Hd].
    destruct (fits_int64 i); [|exact Hd]. simpl.
    unfold tanggal_ok in *. simpl in Hd.
    apply Forall_forall. intros r Hr.
    apply list_elem_of_filter in Hr as [_ Hr].
    rewrite Forall_forall in Hd. now apply Hd.
Qed.

Lemma step_rowid_ok (o : op) (d : db) :
  rowid_ok (db_rows d) → rowid_ok (db_rows (fst (step o d))).
Proof.
  intros Hd.
  destruct (step_cases o d) as [E|[(t & desk & jml & kat & tgl & -> & Hroom & E)
                                  |(t & i & -> & E)]];
    rewrite E; simpl; [exact Hd| |].
  - apply Forall_app. split; [exact Hd|].
    constructor; [|constructor]. simpl.
    pose proof (max_rowid_nonneg (rows t)). unfold next_rowid in *. lia.
  - unfold rowid_ok in *. simpl in Hd.
    apply Forall_forall. intros r Hr.
    apply list_elem_of_filter in Hr as [_ Hr].
    rewrite Forall_forall in Hd. now apply Hd.
Qed.

(** From a new file, whatever the calls and the faults, the table respects
    the primary key, every stored id is a positive 64-bit integer, and, when
    only dates pandas can hold were added, every stored date is readable. *)
Lemma reached_state_ok (ops : list op) :
  Forall op_date_ok ops →
  primary_key_ok (db_rows (fst (run ops fresh)))
  ∧ rowid_ok (db_rows (fst (run ops fresh)))
  ∧ tanggal_ok (db_rows (fst (run ops fresh))).
Proof.
  assert (H : ∀ d, Forall op_date_ok ops →
            rowid_ok (db_rows d) → tanggal_ok (db_rows d) →
            rowid_ok (db_rows (fst (run ops d)))
            ∧ tanggal_ok (db_rows (fst (run ops d)))).
  { induction ops as [|o ops IH]; intros d Hops Hr Ht; [split; assumption|].
    apply Forall_cons in Hops as [Ho Hops].
    rewrite run_cons. simpl. apply IH; [exact Hops| |].
    - now apply step_rowid_ok.
    - now apply step_tanggal_ok. }
  intros Hops. split.
  - apply run_primary_key. constructor.
  - apply H; [exact Hops| |]; constructor.
Qed.

Lemma rowid_ok_fits (rs : list row) (r : row) :
  rowid_ok rs → r ∈ rs → fits_int64 (id_transaksi r) = true.
Proof.
  intros H Hr. unfold rowid_ok in H. rewrite Forall_forall in H.
  specialize (H r Hr). unfold fits_int64, min_int64.
  apply andb_true_iff. split; apply Z.leb_le; lia.
Qed.

(** * Further properties of the ledger *)

(** ** The mapping per category, with a date filter *)

(** The mapping built from the groups of any list of rows. *)
Lemma dict_of_groups (ms : list row) :
  ∃ m : dict,
    dict_comprehension
      ((fun k => [CStr k;
                  CFloat (sum_jumlah (filter (fun r => kategori r = k) ms))])
         <$> remove_dups (kategori <$> ms)) ∅ = Return m
    ∧ (∀ k, m !! CStr k = CFloat <$> category_total ms k)
    ∧ dom m = list_to_set ((fun r => CStr (kategori r)) <$> ms)
    ∧ dict_total m = amount_sum ms.
Proof.
  set (g := fun k => sum_jumlah (filter (fun r => kategori r = k) ms)).
  set (ks := reverse (remove_dups (kategori <$> ms))).
  set (m := list_to_map ((fun k => (CStr k, CFloat (g k))) <$> ks) : dict).
  assert (Hnd : NoDup ks).
  { unfold ks. rewrite reverse_Permutation. apply NoDup_remove_dups. }
  assert (Hks : ∀ k, k ∈ ks ↔ k ∈ kategori <$> ms).
  { intros k. unfold ks. now rewrite elem_of_reverse, elem_of_remove_dups. }
  assert (Hkeys : NoDup ((fun k => (CStr k, CFloat (g k))) <$> ks).*1).
  { rewrite <- list_fmap_compose. apply NoDup_fmap_2; [|exact Hnd].
    intros a b [= ->]. reflexivity. }
  exists m. split; [|split; [|split]].
  - change (fun k => [CStr k; CFloat (sum_jumlah
              (filter (fun r => kategori r = k) ms))])
      with (fun k => [CStr k; CFloat (g k)]).
    now rewrite dict_comprehension_pairs, foldl_insert_list_to_map.
  - intros k. destruct (decide (k ∈ kategori <$> ms)) as [Hin|Hnot].
    + rewrite (category_total_present ms k Hin). simpl.
      apply elem_of_list_to_map; [exact Hkeys|].
      apply list_elem_of_fmap. exists k. split.
      * unfold g. now rewrite sum_jumlah_amount_sum.
      * now apply Hks.
    + rewrite (category_total_absent ms k Hnot). simpl.
      apply not_elem_of_list_to_map_1. rewrite <- list_fmap_compose.
      intros Hin. apply list_elem_of_fmap in Hin as (k' & [= ->] & Hk').
      apply Hnot. now apply Hks.
  - unfold m. rewrite dom_list_to_map_L, <- list_fmap_compose.
    apply set_eq. intros c.
    rewrite !elem_of_list_to_set, !list_elem_of_fmap. split.
    + intros (k & -> & Hk). apply Hks in Hk.
      apply list_elem_of_fmap in Hk as (r & -> & Hr). eauto.
    + intros (r & -> & Hr). exists (kategori r). split; [reflexivity|].
      apply Hks, list_elem_of_fmap. eauto.
  - unfold m. rewrite dict_total_list_to_map by exact Hnd.
    rewrite <- (sum_over_categories ms ks Hnd).
    + apply sum_over_ext. intros k. unfold g. now rewrite sum_jumlah_amount_sum.
    + intros r Hr. apply Hks, list_elem_of_fmap. eauto.
Qed.

Lemma get_pengeluaran_per_kategori_filtered_aux (d : db) (tgl : option date) :
  ∃ m : dict,
    get_pengeluaran_per_kategori tgl false d = (d, Return m)
    ∧ (∀ k, m !! CStr k
            = CFloat <$> category_total
                           (filter (matches_filter tgl) (db_rows d)) k).
Proof.
  destruct (dict_of_groups (filter (matches_filter tgl) (db_rows d)))
    as (m & Em & Hlook & _).
  exists m. split; [|exact Hlook].
  destruct d as [t|].
  - rewrite get_pengeluaran_per_kategori_ok. f_equal.
    unfold select_sum_group_by. rewrite filter_where_matches. exact Em.
  - simpl in Em. injection Em as <-. reflexivity.
Qed.


(** ** Adding *)


Lemma tambah_transaksi_outcome_aux (tx : Transaksi) (fault : bool) (d : db) :
  tambah_transaksi tx fault d = (d, Return false)
  ∨ (∃ t, d = Some t ∧ fault = false ∧ next_rowid t ≤ max_int64
          ∧ tambah_transaksi tx fault d
            = (Some (mk_table (rows t ++ [tx_row (next_rowid t) tx])
                              (next_rowid t)),
               Return true)).
Proof.
  destruct fault; [left; reflexivity|].
  destruct d as [t|]; [|left; reflexivity].
  destruct (Z.le_gt_cases (next_rowid t) max_int64) as [Hroom|Hfull].
  - right. exists t. repeat split; try assumption.
    now apply tambah_transaksi_ok.
  - left.
    unfold tambah_transaksi, tambah_transaksi_last_id, execute_query,
      cursor_execute.
    destruct (next_rowid t <=? max_int64) eqn:E; [|reflexivity].
    apply Z.leb_le in E. lia.
Qed.









(** ** Adding, then deleting *)

Lemma next_rowid_positive (t : table) : 1 ≤ next_rowid t.
Proof. pose proof (max_rowid_nonneg (rows t)). unfold next_rowid. lia. Qed.

(** X5: deleting the id that a successful addition has just assigned takes
    the new row out again: the rows, and with them the listing and every
    total, are as before the addition.  The counter of the table is not set
    back, so the next addition gets a larger id, not the deleted one. *)
Theorem tambah_hapus_round_trip (t : table) (tx : Transaksi)
    (Hroom : next_rowid t ≤ max_int64) :
  ∃ t2 : table,
    hapus_transaksi (next_rowid t) false
                    (fst (tambah_transaksi tx false (Some t)))
      = (Some t2, Return (VBool true))
    ∧ rows t2 = rows t
    ∧ (∀ f, snd (get_dataframe_transaksi f (Some t2))
            = snd (get_dataframe_transaksi f (Some t)))
    ∧ (∀ tgl f, snd (hitung_total_pengeluaran tgl f (Some t2))
                = snd (hitung_total_pengeluaran tgl f (Some t)))
    ∧ next_rowid t2 = next_rowid t + 1.
Proof.
  assert (H64 : fits_int64 (next_rowid t) = true).
  { pose proof (next_rowid_positive t). unfold fits_int64, min_int64.
    apply andb_true_iff. split; apply Z.leb_le; lia. }
  assert (Hrows : filter (fun r => id_transaksi r ≠ next_rowid t)
                         (rows t ++ [tx_row (next_rowid t) tx]) = rows t).
  { rewrite filter_app, filter_ne_next_rowid.
    rewrite filter_cons_False by (intros H; now apply H).
    now rewrite filter_nil, app_nil_r. }
  exists (mk_table (rows t) (next_rowid t)).
  split; [|split; [reflexivity|split; [|split]]].
  - rewrite tambah_transaksi_ok by exact Hroom. cbn [fst].
    rewrite hapus_transaksi_ok by exact H64. simpl.
    fold (tx_row (next_rowid t) tx). now rewrite Hrows.
  - intros [|]; reflexivity.
  - intros tgl [|]; reflexivity.
  - pose proof (max_rowid_nonneg (rows t)).
    unfold next_rowid at 1. simpl. unfold next_rowid. lia.
Qed.

Lemma tambah_hapus_round_trip_witness :
  ∃ t2 : table,
    hapus_transaksi 4 false (fst (tambah_transaksi bus false (Some three_rows)))
      = (Some t2, Return (VBool true))
    ∧ rows t2 = rows three_rows
    ∧ (∀ f, snd (get_dataframe_transaksi f (Some t2))
            = snd (get_dataframe_transaksi f (Some three_rows)))
    ∧ (∀ tgl f, snd (hitung_total_pengeluaran tgl f (Some t2))
                = snd (hitung_total_pengeluaran tgl f (Some three_rows)))
    ∧ next_rowid t2 = 4 + 1.
Proof.
  apply (tambah_hapus_round_trip three_rows bus).
  vm_compute. discriminate.
Defined.

(** ** The constructor *)

(** X6: constructing the ledger never touches stored data: on a file that
    has the table the constructor leaves the file as it is, with or without
    a storage fault; on a file without the table it creates the empty table
    unless the storage call fails, in which case the constructor returns
    all the same and the table is still missing.  Constructing a second
    time changes nothing. *)
Theorem AnggaranHarian_init_keeps_data (f f' : bool) (d : db) (t : table) :
  db_rows (AnggaranHarian_init f d) = db_rows d
  ∧ AnggaranHarian_init f (Some t) = Some t
  ∧ AnggaranHarian_init false None = Some (mk_table [] 0)
  ∧ AnggaranHarian_init true None = None
  ∧ AnggaranHarian_init f' (AnggaranHarian_init false d)
    = AnggaranHarian_init false d
  ∧ snd (_buat_tabel_jika_tidak_ada f d) = Return ().
Proof.
  unfold AnggaranHarian_init, _buat_tabel_jika_tidak_ada, execute_query,
    cursor_execute.
  destruct f, f', d as [t0|]; simpl; repeat split; reflexivity.
Qed.

(** ** A file without the table *)

Lemma step_without_table (o : op) : step o None = (None, []).
Proof. destruct o as [tx [|]|i [|]]; reflexivity. Qed.

(** X7: while the table is missing (the constructor's CREATE failed), no
    call raises and none creates the table: adding returns [False],
    deleting returns [False], the listing returns [None], the total is 0.0
    and the mapping per category is empty, whatever the arguments; and
    after any sequence of additions and deletions the table is still
    missing and no id was assigned. *)
Theorem without_table (tx : Transaksi) (i : Z) (tgl : option date) (f : bool)
    (ops : list op) :
  tambah_transaksi tx f None = (None, Return false)
  ∧ hapus_transaksi i f None = (None, Return (VBool false))
  ∧ get_dataframe_transaksi f None = (None, None)
  ∧ hitung_total_pengeluaran tgl f None = (None, Return (CFloat 0))
  ∧ get_pengeluaran_per_kategori tgl f None = (None, Return ∅)
  ∧ run ops (AnggaranHarian_init true None) = (None, []).
Proof.
  split; [destruct f; reflexivity|]. split; [destruct f; reflexivity|].
  split; [destruct f; reflexivity|]. split; [destruct f; reflexivity|].
  split; [destruct f; reflexivity|].
  change (AnggaranHarian_init true None) with (@None table).
  induction ops as [|o ops IH]; [reflexivity|].
  rewrite run_cons, step_without_table. simpl. now rewrite IH.
Qed.

(** ** What the ledger never does *)

(** X8: the three reading methods never change the file and never raise,
    for every file and with or without a storage fault: the total is always
    a float, the mapping always a dict. *)
Theorem readers_are_pure (tgl : option date) (f : bool) (d : db) :
  (∃ x, hitung_total_pengeluaran tgl f d = (d, Return (CFloat x)))
  ∧ (∃ m, get_pengeluaran_per_kategori tgl f d = (d, Return m))
  ∧ fst (get_dataframe_transaksi f d) = d.
Proof.
  destruct f.
  - repeat split; eexists; reflexivity.
  - split; [eexists; apply hitung_total_pengeluaran_eq|].
    split.
    + destruct (get_pengeluaran_per_kategori_filtered_aux d tgl) as (m & E & _).
      eauto.
    + destruct d; reflexivity.
Qed.


(** ** Deleting twice, deleting in either order *)

Lemma hapus_transaksi_file (i : Z) (f : bool) (d : db) :
  fst (hapus_transaksi i f d)
  = match d with
    | Some t =>
        if negb f && fits_int64 i
        then Some (mk_table (filter (fun r => id_transaksi r ≠ i) (rows t))
                            (seq t))
        else d
    | None => None
    end.
Proof.
  unfold hapus_transaksi, execute_query, cursor_execute.
  destruct f, d as [t|]; simpl; try reflexivity.
  destruct (fits_int64 i); reflexivity.
Qed.

(** X10: deleting is idempotent and deletions commute: deleting the same id
    a second time leaves the file as the first deletion left it (and still
    returns [True] when the statement runs), and two deletions leave the
    same file in either order, whatever the ids and the storage faults. *)
Theorem hapus_idempotent_commutes (i j : Z) (fi fj : bool) (d : db) :
  fst (hapus_transaksi i fi (fst (hapus_transaksi i fi d)))
  = fst (hapus_transaksi i fi d)
  ∧ snd (hapus_transaksi i fi (fst (hapus_transaksi i fi d)))
    = snd (hapus_transaksi i fi d)
  ∧ fst (hapus_transaksi i fi (fst (hapus_transaksi j fj d)))
    = fst (hapus_transaksi j fj (fst (hapus_transaksi i fi d))).
Proof.
  split; [|split].
  - rewrite !hapus_transaksi_file. destruct d as [t|]; [|reflexivity].
    destruct (negb fi && fits_int64 i); [|reflexivity].
    simpl. do 2 f_equal.
    apply filter_all_true. intros r Hr.
    now apply list_elem_of_filter in Hr as [Hr _].
  - pose proof (hapus_transaksi_file i fi d) as E.
    unfold hapus_transaksi, execute_query, cursor_execute in *.
    destruct fi, d as [t|]; simpl in *; try reflexivity.
    destruct (fits_int64 i); reflexivity.
  - rewrite !hapus_transaksi_file. destruct d as [t|]; [|reflexivity].
    destruct (negb fi && fits_int64 i);
      destruct (negb fj && fits_int64 j); simpl; try reflexivity.
    do 2 f_equal. rewrite !list_filter_filter.
    apply list_filter_iff. intros r. tauto.
Qed.

(** ** Runs of additions *)





(** ** The text of an amount *)

Lemma pretty_N_char_digit (n : N) : is_Some (digit_val (pretty_N_char n)).
Proof.
  unfold pretty_N_char. repeat case_match; vm_compute; eauto.
Qed.

Lemma pretty_N_go_digits (x : N) (s : string) :
  Forall (fun c => is_Some (digit_val c)) (list_ascii_of_string s) →
  Forall (fun c => is_Some (digit_val c))
         (list_ascii_of_string (pretty_N_go x s)).
Proof.
  revert s. induction (N.lt_wf_0 x) as [x _ IH]; intros s Hs.
  destruct (decide (0 < x)%N) as [Hx|Hx].
  - rewrite pretty_N_go_step by exact Hx.
    apply IH; [now apply N.div_lt|].
    simpl. constructor; [apply pretty_N_char_digit | exact Hs].
  - assert (x = 0%N) as -> by lia. now rewrite pretty_N_go_0.
Qed.

(** The decimal numeral of a non-negative number consists of digits. *)
Lemma pretty_abs_digits (x : Z) :
  Forall (fun c => is_Some (digit_val c))
         (list_ascii_of_string (pretty (Z.abs x))).
Proof.
  destruct x as [|p|p].
  - repeat constructor; vm_compute; eauto.
  - change (pretty (Z.abs (Z.pos p))) with (pretty_N_go (N.pos p) "").
    apply pretty_N_go_digits. constructor.
  - change (pretty (Z.abs (Z.neg p))) with (pretty_N_go (N.pos p) "").
    apply pretty_N_go_digits. constructor.
Qed.

Lemma digit_not_separator (c : ascii) :
  is_Some (digit_val c) → c ≠ ","%char ∧ c ≠ "."%char ∧ c ≠ "-"%char.
Proof.
  intros [n Hn]. repeat split; intros ->; vm_compute in Hn; discriminate.
Qed.

Lemma group3_eq (a b c e : ascii) (rest : list ascii) :
  group3 (a :: b :: c :: e :: rest)
  = a :: b :: c :: ","%char :: group3 (e :: rest).
Proof. reflexivity. Qed.

Lemma group3_short (l : list ascii) : (length l ≤ 3)%nat → group3 l = l.
Proof.
  destruct l as [|a [|b [|c [|e rest]]]]; simpl; try reflexivity. lia.
Qed.

(** Induction in steps of three digits. *)
Lemma group3_ind (P : list ascii → Prop) :
  (∀ l, (length l ≤ 3)%nat → P l) →
  (∀ a b c e rest, P (e :: rest) → P (a :: b :: c :: e :: rest)) →
  ∀ l, P l.
Proof.
  intros Hshort Hstep l.
  assert (H : ∀ n l, (length l ≤ n)%nat → P l).
  { clear l. induction n as [|n IH]; intros l Hl.
    - apply Hshort. lia.
    - destruct l as [|a [|b [|c [|e rest]]]]; try (apply Hshort; simpl; lia).
      apply Hstep, IH. simpl in *. lia. }
  now apply (H (length l)).
Qed.

(** Taking the separators out of the grouped digits gives the digits. *)
Lemma group3_strip (l : list ascii) :
  Forall (fun c => c ≠ ","%char) l →
  filter (fun c => c ≠ ","%char) (group3 l) = l.
Proof.
  induction l as [l Hl|a b c e rest IH] using group3_ind; intros Hall.
  - rewrite group3_short by exact Hl. apply filter_all_true.
    intros x Hx. rewrite Forall_forall in Hall. now apply Hall.
  - rewrite group3_eq.
    apply Forall_cons in Hall as [Ha Hall].
    apply Forall_cons in Hall as [Hb Hall].
    apply Forall_cons in Hall as [Hc Hall].
    rewrite !filter_cons_True by assumption.
    rewrite filter_cons_False by (intros H; now apply H).
    now rewrite IH.
Qed.

(** A separator stands at every fourth place, and nowhere else. *)
Lemma group3_places (l : list ascii) :
  Forall (fun c => c ≠ ","%char) l →
  ∀ (i : nat) (x : ascii),
    group3 l !! i = Some x → (x = ","%char ↔ Z.of_nat i mod 4 = 3).
Proof.
  induction l as [l Hl|a b c e rest IH] using group3_ind; intros Hall i x Hx.
  - rewrite group3_short in Hx by exact Hl.
    assert (Hi : (i < 3)%nat).
    { apply lookup_lt_Some in Hx. lia. }
    rewrite Forall_forall in Hall.
    assert (x ≠ ","%char) by (eapply Hall, list_elem_of_lookup_2, Hx).
    split; [contradiction|]. intros Hm. exfalso.
    Z.div_mod_to_equations. lia.
  - rewrite group3_eq in Hx.
    apply Forall_cons in Hall as [Ha Hall].
    apply Forall_cons in Hall as [Hb Hall].
    apply Forall_cons in Hall as [Hc Hall].
    destruct i as [|[|[|[|j]]]]; simpl in Hx.
    + injection Hx as <-. split; [contradiction|]. discriminate.
    + injection Hx as <-. split; [contradiction|]. discriminate.
    + injection Hx as <-. split; [contradiction|]. discriminate.
    + injection Hx as <-. split; reflexivity.
    + rewrite (IH Hall j x Hx).
      replace (Z.of_nat (S (S (S (S j))))) with (Z.of_nat j + 1 * 4) by lia.
      now rewrite Z.mod_add by lia.
Qed.

Lemma group3_no_dot (l : list ascii) :
  Forall (fun c => c ≠ "."%char) l → Forall (fun c => c ≠ "."%char) (group3 l).
Proof.
  induction l as [l Hl|a b c e rest IH] using group3_ind; intros Hall.
  - now rewrite group3_short by exact Hl.
  - rewrite group3_eq.
    apply Forall_cons in Hall as [Ha Hall].
    apply Forall_cons in Hall as [Hb Hall].
    apply Forall_cons in Hall as [Hc Hall].
    repeat (constructor; [assumption || discriminate|]). now apply IH.
Qed.

Lemma rev_is_reverse {A} (l : list A) : rev l = reverse l.
Proof. unfold reverse. apply rev_alt. Qed.

Lemma replace_comma_strip (s : list ascii) :
  Forall (fun c => c ≠ "."%char) s →
  filter (fun c => c ≠ "."%char) (replace_comma s)
  = filter (fun c => c ≠ ","%char) s.
Proof.
  unfold replace_comma. induction 1 as [|c s Hc Hs IH]; [reflexivity|].
  rewrite fmap_cons. destruct (decide (c = ","%char)) as [->|Hne].
  - rewrite filter_cons_False by (intros H; now apply H).
    rewrite (filter_cons_False (fun c => c ≠ ","%char))
      by (intros H; now apply H).
    exact IH.
  - rewrite filter_cons_True by exact Hc.
    rewrite (filter_cons_True (fun c => c ≠ ","%char)) by exact Hne.
    now rewrite IH.
Qed.

Lemma format_comma_strip (x : Z) :
  Forall (fun c => c ≠ "."%char) (format_comma x)
  ∧ filter (fun c => c ≠ ","%char) (format_comma x)
    = list_ascii_of_string (pretty x).
Proof.
  pose proof (pretty_abs_digits x) as Hd.
  assert (Hc : Forall (fun c => c ≠ ","%char)
                      (list_ascii_of_string (pretty (Z.abs x)))).
  { eapply Forall_impl; [exact Hd|]. intros c Hcd.
    now apply digit_not_separator in Hcd. }
  assert (Hp : Forall (fun c => c ≠ "."%char)
                      (list_ascii_of_string (pretty (Z.abs x)))).
  { eapply Forall_impl; [exact Hd|]. intros c Hcd.
    now apply digit_not_separator in Hcd. }
  assert (Hbody : filter (fun c => c ≠ ","%char)
                    (rev (group3 (rev (list_ascii_of_string
                                         (pretty (Z.abs x))))))
                  = list_ascii_of_string (pretty (Z.abs x))).
  { rewrite !rev_is_reverse, filter_reverse, group3_strip.
    - apply reverse_involutive.
    - now apply Forall_reverse. }
  assert (Hnodot : Forall (fun c => c ≠ "."%char)
                     (rev (group3 (rev (list_ascii_of_string
                                          (pretty (Z.abs x))))))).
  { rewrite !rev_is_reverse. apply Forall_reverse, group3_no_dot.
    now apply Forall_reverse. }
  unfold format_comma. destruct (x <? 0) eqn:E.
  - apply Z.ltb_lt in E. split; [constructor; [discriminate | exact Hnodot]|].
    rewrite filter_cons_True by discriminate. rewrite Hbody.
    destruct x as [|p|p]; try lia. reflexivity.
  - apply Z.ltb_ge in E. split; [exact Hnodot|]. rewrite Hbody.
    now rewrite Z.abs_eq by exact E.
Qed.

(** X12: the text of an amount, in the history ([format_jumlah]) and, when
    the locale is not installed, in the summary ([format_rp]), is its decimal
    numeral with [.] separators put in: taking the separators out gives the
    numeral (with [-] in front of a negative amount); read from the right,
    the text of a non-negative amount has a separator at every fourth place
    and digits everywhere else; [format_rp] puts [Rp ] in front and shows an
    absent amount as 0. *)
Theorem format_jumlah_numeral (x : Z) (angka : option Z) :
  strip_dots (format_jumlah x) = pretty x
  ∧ (∀ (i : nat) (c : ascii),
       reverse (list_ascii_of_string (format_jumlah (Z.abs x))) !! i = Some c →
       (c = "."%char ↔ Z.of_nat i mod 4 = 3)
       ∧ (c ≠ "."%char → is_Some (digit_val c)))
  ∧ format_rp None angka = ("Rp " +:+ format_jumlah (default 0 angka))%string
  ∧ format_rp None None = "Rp 0"%string.
Proof.
  split; [|split; [|split; reflexivity]].
  - unfold strip_dots, format_jumlah.
    rewrite list_ascii_of_string_of_list_ascii.
    destruct (format_comma_strip x) as [Hnodot Hstrip].
    now rewrite replace_comma_strip, Hstrip, string_of_list_ascii_of_string.
  - intros i c. unfold format_jumlah, format_comma.
    rewrite list_ascii_of_string_of_list_ascii.
    assert (E : (Z.abs x <? 0) = false) by (apply Z.ltb_ge; lia).
    rewrite E, Z.abs_idemp. clear E.
    set (digits := list_ascii_of_string (pretty (Z.abs x))).
    pose proof (pretty_abs_digits x) as Hd. fold digits in Hd.
    unfold replace_comma.
    rewrite !rev_is_reverse, <- fmap_reverse, reverse_involutive.
    rewrite list_lookup_fmap.
    destruct (group3 (reverse digits) !! i) as [y|] eqn:Hy; [|discriminate].
    simpl. intros [= <-].
    assert (Hrev : Forall (fun c => is_Some (digit_val c)) (reverse digits))
      by (now apply Forall_reverse).
    assert (Hc : Forall (fun c => c ≠ ","%char) (reverse digits)).
    { eapply Forall_impl; [exact Hrev|]. intros c Hcd.
      now apply digit_not_separator in Hcd. }
    pose proof (group3_places _ Hc i y Hy) as Hplace.
    assert (Hy' : y = ","%char ∨ is_Some (digit_val y)).
    { destruct (decide (y = ","%char)) as [|Hne]; [now left|right].
      assert (Hin : y ∈ filter (fun c => c ≠ ","%char) (group3 (reverse digits))).
      { apply list_elem_of_filter. split; [exact Hne|].
        eapply list_elem_of_lookup_2, Hy. }
      rewrite group3_strip in Hin by exact Hc.
      rewrite Forall_forall in Hrev. now apply Hrev. }
    destruct (decide (y = ","%char)) as [->|Hne].
    + split; [|intros H; now contradiction H].
      split; [intros _; now apply Hplace | reflexivity].
    + destruct Hy' as [|Hdig]; [contradiction|].
      split; [|intros _; exact Hdig].
      split.
      * intros ->. apply digit_not_separator in Hdig. tauto.
      * intros Hm. apply Hplace in Hm. contradiction.
Qed.

Lemma format_jumlah_numeral_witness :
  (("."%char = "."%char ↔ Z.of_nat 3 mod 4 = 3)
   ∧ ("."%char ≠ "."%char → is_Some (digit_val "."%char))).
Proof.
  apply (proj1 (proj2 (format_jumlah_numeral 25000 None)) 3%nat "."%char).
  reflexivity.
Defined.

(** * The pages *)

(** ** The input page *)

(** X13: [halaman_input] changes the file in one case only: the form was
    submitted with a description that is not empty and an amount above
    zero, and the addition succeeded.  It then has appended exactly the row
    of these inputs and shows the success message, clears the cache and
    reruns.  In every other case the file is as before and no success
    message is shown. *)
Theorem halaman_input_outcome (inp : form_input) (fault : bool) (d : db) :
  (fst (halaman_input inp fault d) = d
   ∧ Success "Transaksi berhasil disimpan!" ∉ snd (halaman_input inp fault d))
  ∨ (∃ t jml,
       d = Some t ∧ fault = false ∧ next_rowid t ≤ max_int64
       ∧ f_submitted inp = true
       ∧ f_deskripsi inp ≠ EmptyString
       ∧ f_jumlah inp = Some jml ∧ 0 < jml
       ∧ halaman_input inp fault d
         = (Some (mk_table
                    (rows t ++ [tx_row (next_rowid t)
                                  (mk_Transaksi (f_deskripsi inp) jml
                                                (f_kategori inp)
                                                (f_tanggal inp))])
                    (next_rowid t)),
            [Success "Transaksi berhasil disimpan!"; CacheClear; Rerun])).
Proof.
  unfold halaman_input.
  destruct (f_submitted inp) eqn:Hs;
    [|left; split; [reflexivity | intros H; inversion H]].
  destruct (decide (f_deskripsi inp = EmptyString)) as [Hd|Hd].
  { left. split; [reflexivity|]. intros H.
    apply list_elem_of_singleton in H. discriminate. }
  destruct (f_jumlah inp) as [jml|] eqn:Hj.
  2:{ left. split; [reflexivity|]. intros H.
      apply list_elem_of_singleton in H. discriminate. }
  destruct (Z.leb_spec jml 0) as [Hle|Hpos].
  { left. split; [reflexivity|]. intros H.
    apply list_elem_of_singleton in H. discriminate. }
  set (tx := mk_Transaksi (f_deskripsi inp) jml (f_kategori inp) (f_tanggal inp)).
  destruct (tambah_transaksi_outcome_aux tx fault d)
    as [E|(t & -> & -> & Hroom & E)]; rewrite E.
  - left. split; [reflexivity|]. intros H.
    apply list_elem_of_singleton in H. discriminate.
  - right. exists t, jml. repeat split; try assumption; reflexivity.
Qed.

Lemma halaman_input_file (inp : form_input) (fault : bool) (d : db) :
  fst (halaman_input inp fault d) = d
  ∨ ∃ t jml, d = Some t ∧ f_deskripsi inp ≠ EmptyString ∧ 0 < jml
      ∧ fst (halaman_input inp fault d)
        = Some (mk_table
                  (rows t ++ [tx_row (next_rowid t)
                                (mk_Transaksi (f_deskripsi inp) jml
                                              (f_kategori inp)
                                              (f_tanggal inp))])
                  (next_rowid t)).
Proof.
  unfold halaman_input.
  destruct (f_submitted inp); [|now left].
  destruct (decide (f_deskripsi inp = EmptyString)) as [Hd|Hd]; [now left|].
  destruct (f_jumlah inp) as [jml|]; [|now left].
  destruct (Z.leb_spec jml 0) as [Hle|Hpos]; [now left|].
  set (tx := mk_Transaksi (f_deskripsi inp) jml (f_kategori inp) (f_tanggal inp)).
  destruct (tambah_transaksi_outcome_aux tx fault d)
    as [E|(t & -> & -> & Hroom & E)]; rewrite E; [now left|].
  right. exists t, jml. auto.
Qed.

(** ** The history page *)

Lemma halaman_riwayat_file (refresh : bool) (id_input : option Z)
    (confirm : bool) (fl fh : bool) (d : db) :
  fst (halaman_riwayat refresh id_input confirm fl fh d) = d
  ∨ ∃ t i, d = Some t
      ∧ fst (halaman_riwayat refresh id_input confirm fl fh d)
        = Some (mk_table (filter (fun r => id_transaksi r ≠ i) (rows t))
                         (seq t)).
Proof.
  unfold halaman_riwayat. destruct refresh; [now left|].
  assert (E : get_dataframe_transaksi fl d
              = (d, snd (get_dataframe_transaksi fl d))).
  { destruct fl, d; reflexivity. }
  rewrite E. destruct confirm; [|now left].
  destruct id_input as [i|]; [|now left].
  pose proof (hapus_transaksi_file i fh d) as Hf.
  destruct (hapus_transaksi i fh d) as [d2 [v|e]] eqn:Eh; simpl in Hf.
  - assert (Hd2 : fst (if truthy v
                       then (d2, [tampil_riwayat (snd (get_dataframe_transaksi fl d));
                                  Success (pesan_berhasil_dihapus i);
                                  CacheClear; Rerun])
                       else (d2, [tampil_riwayat (snd (get_dataframe_transaksi fl d));
                                  Error (pesan_gagal_menghapus i)])) = d2)
      by (destruct (truthy v); reflexivity).
    rewrite Hd2, Hf. destruct d as [t|]; [|now left].
    destruct (negb fh && fits_int64 i); [right; eauto | now left].
  - simpl. rewrite Hf. destruct d as [t|]; [|now left].
    destruct (negb fh && fits_int64 i); [right; eauto | now left].
Qed.

(** X14: through the two pages, only validated rows are ever stored: if
    every stored row has a description and a positive amount, then so has
    every stored row after any sequence of runs of the input page and the
    history page, whatever was typed, pressed or failed. *)
Theorem ui_keeps_rows_validated (l : list interaction) (d : db)
    (Hd : rows_validated (db_rows d)) :
  rows_validated (db_rows (ui_run l d)).
Proof.
  revert d Hd. unfold ui_run.
  induction l as [|a l IH]; intros d Hd; [exact Hd|].
  simpl. apply IH. destruct a as [inp fault|refresh id_input confirm fl fh].
  - simpl. destruct (halaman_input_file inp fault d)
      as [E|(t & jml & -> & Hdesk & Hpos & E)]; rewrite E; [exact Hd|].
    simpl. apply Forall_app. split; [exact Hd|].
    constructor; [|constructor]. simpl. auto.
  - simpl. destruct (halaman_riwayat_file refresh id_input confirm fl fh d)
      as [E|(t & i & -> & E)]; rewrite E; [exact Hd|].
    unfold rows_validated in *. simpl in *.
    apply Forall_forall. intros r Hr.
    apply list_elem_of_filter in Hr as [_ Hr].
    rewrite Forall_forall in Hd. now apply Hd.
Qed.

Lemma tampil_riwayat_other (df : option DataFrame) (i : Z) :
  tampil_riwayat df ≠ Error (pesan_gagal_menghapus i)
  ∧ tampil_riwayat df ≠ Success (pesan_berhasil_dihapus i).
Proof.
  unfold tampil_riwayat, pesan_gagal_menghapus.
  destruct df as [[|b l]|]; split; discriminate.
Qed.

(** X15: when the confirm button of the history page is pressed with an id
    typed in, the page shows the failure message (with its hint to check
    the id) exactly when the storage call fails or the table is missing, and
    the success message exactly when the DELETE statement ran: whether a row
    carries the id plays no part.  For an id no row carries, the file is as
    before. *)
Theorem halaman_riwayat_hapus (i : Z) (fl fh : bool) (d : db) :
  (Error (pesan_gagal_menghapus i)
     ∈ snd (halaman_riwayat false (Some i) true fl fh d)
   ↔ fh = true ∨ d = None)
  ∧ (Success (pesan_berhasil_dihapus i)
       ∈ snd (halaman_riwayat false (Some i) true fl fh d)
     ↔ fh = false ∧ d ≠ None ∧ fits_int64 i = true)
  ∧ ((∀ r, r ∈ db_rows d → id_transaksi r ≠ i) →
     fst (halaman_riwayat false (Some i) true fl fh d) = d).
Proof.
  assert (E : get_dataframe_transaksi fl d
              = (d, snd (get_dataframe_transaksi fl d))).
  { destruct fl, d; reflexivity. }
  destruct (tampil_riwayat_other (snd (get_dataframe_transaksi fl d)) i)
    as [Hne1 Hne2].
  unfold halaman_riwayat. rewrite E.
  unfold hapus_transaksi, execute_query, cursor_execute.
  destruct fh; [|destruct d as [t|]; [destruct (fits_int64 i) eqn:F|]]; simpl.
  - split; [|split].
    + rewrite !elem_of_cons, elem_of_nil. split; [auto|]. intros _. auto.
    + rewrite !elem_of_cons, elem_of_nil. split; [|intros [? _]; discriminate].
      intros [H|[H|[]]]; [now symmetry in H|discriminate].
    + reflexivity.
  - split; [|split].
    + rewrite !elem_of_cons, elem_of_nil.
      split; [|intros [|]; discriminate].
      intros [H|[H|[H|[H|[]]]]]; try discriminate. now symmetry in H.
    + rewrite !elem_of_cons, elem_of_nil. split; [|auto].
      intros _. repeat split; discriminate || reflexivity.
    + intros Habs. rewrite filter_all_true by exact Habs. now destruct t.
  - split; [|split].
    + rewrite !elem_of_cons, elem_of_nil.
      split; [|intros [|]; discriminate].
      intros [H|[H|[]]]; [now symmetry in H|discriminate].
    + rewrite !elem_of_cons, elem_of_nil. split; [|intros (_ & _ & ?); discriminate].
      intros [H|[H|[]]]; [now symmetry in H|discriminate].
    + reflexivity.
  - split; [|split].
    + rewrite !elem_of_cons, elem_of_nil. split; [auto|]. intros _. auto.
    + rewrite !elem_of_cons, elem_of_nil.
      split; [|intros (_ & H & _); now contradiction H].
      intros [H|[H|[]]]; [now symmetry in H|discriminate].
    + reflexivity.
Qed.

Lemma riwayat_listing_empty (fl : bool) (d : db) :
  snd (get_dataframe_transaksi fl d) = Some []
  ↔ fl = false ∧ ∃ t, d = Some t ∧ rows t = [].
Proof.
  split.
  - destruct fl; [discriminate|]. destruct d as [t|]; [|discriminate].
    rewrite get_dataframe_transaksi_ok. simpl. intros H.
    split; [reflexivity|]. exists t. split; [reflexivity|].
    assert (Ho : order_by (rows t) = []).
    { destruct (order_by (rows t)) as [|r l]; [reflexivity|].
      rewrite fmap_cons in H. apply mapM_cons_inv in H as (? & ? & ? & _).
      discriminate. }
    apply Permutation_nil. rewrite <- Ho. apply order_by_Permutation.
  - intros (-> & t & -> & Hrows). now rewrite get_dataframe_transaksi_empty.
Qed.

(** X16: without a button pressed, the history page leaves the file alone
    and shows one thing.  It is the note that nothing is recorded exactly
    when the listing succeeded on a table without rows; a failed listing
    (storage fault or missing table) gives the error message instead, so a
    reader of the page can tell an empty history from a failed read. *)
Theorem halaman_riwayat_shows (id_input : option Z) (fl fh : bool) (d : db) :
  fst (halaman_riwayat false id_input false fl fh d) = d
  ∧ snd (halaman_riwayat false id_input false fl fh d)
    = [tampil_riwayat (snd (get_dataframe_transaksi fl d))]
  ∧ (snd (halaman_riwayat false id_input false fl fh d)
       = [Info "Belum ada transaksi yang tercatat."]
     ↔ fl = false ∧ ∃ t, d = Some t ∧ rows t = [])
  ∧ (fl = true ∨ d = None →
     snd (halaman_riwayat false id_input false fl fh d)
       = [Error "Gagal mengambil data riwayat."]).
Proof.
  assert (E : halaman_riwayat false id_input false fl fh d
              = (d, [tampil_riwayat (snd (get_dataframe_transaksi fl d))])).
  { unfold halaman_riwayat. destruct fl, d; reflexivity. }
  rewrite E. simpl. split; [reflexivity|]. split; [reflexivity|]. split.
  - rewrite <- riwayat_listing_empty.
    destruct (snd (get_dataframe_transaksi fl d)) as [[|b l]|]; simpl;
      split; intros H; try discriminate; reflexivity.
  - intros [->| ->]; [reflexivity|]. destruct fl; reflexivity.
Qed.

Lemma halaman_riwayat_shows_witness :
  snd (halaman_riwayat false None false true false scenario)
  = [Error "Gagal mengambil data riwayat."].
Proof.
  apply (proj2 (proj2 (proj2 (halaman_riwayat_shows None true false scenario)))).
  left. reflexivity.
Defined.

(** * The connection *)

(** X17: when [commit] does not raise, a gateway call returns the result
    and leaves the file that [execute_query] describes, for a fault at
    [connect] or at [execute] alike; and it leaves no connection open: after
    the call [self.conn] is a closed connection, on success, on a failed
    statement and on an [OverflowError] alike.  Only when [connect] itself
    raised is [self.conn] what it was before. *)
Theorem execute_query_conn_releases (f : faults) (sql : statement)
    (is_insert : bool) (fetch : option string) (m : manager) (d : db)
    (Hcommit : at_commit f = false) :
  snd (execute_query_conn f sql is_insert fetch m d)
    = snd (execute_query (at_connect f || at_execute f) sql is_insert fetch d)
  ∧ snd (fst (execute_query_conn f sql is_insert fetch m d))
    = Some (fst (execute_query (at_connect f || at_execute f) sql
                               is_insert fetch d))
  ∧ fst (fst (execute_query_conn f sql is_insert fetch m d))
    = (if at_connect f then m else Some Closed).
Proof.
  unfold execute_query_conn, execute_query, __enter__, __exit__.
  rewrite Hcommit.
  destruct (at_connect f); simpl; [repeat split; reflexivity|].
  destruct (cursor_execute (at_execute f) sql d) as [[d' cur]|[]] eqn:E;
    simpl.
  - repeat split; destruct is_insert; try reflexivity;
      destruct (bool_decide (fetch = Some "one"%string));
      try reflexivity;
      destruct (bool_decide (fetch = Some "all"%string)); reflexivity.
  - repeat split; reflexivity.
  - repeat split; reflexivity.
  - repeat split; reflexivity.
  - repeat split; reflexivity.
Qed.

Lemma execute_query_conn_releases_witness :
  snd (execute_query_conn (mk_faults false false false) (DELETE_WHERE_id (2 ^ 63))
                          false None None scenario)
    = Raise OverflowError
  ∧ fst (fst (execute_query_conn (mk_faults false false false)
                (DELETE_WHERE_id (2 ^ 63)) false None None scenario))
    = Some Closed.
Proof.
  destruct (execute_query_conn_releases (mk_faults false false false)
              (DELETE_WHERE_id (2 ^ 63)) false None None scenario eq_refl)
    as (H1 & _ & H3).
  split; [exact H1 | exact H3].
Defined.

(** X18: when the connection was opened and [commit] raises, the call
    returns the failure sentinel of its mode whatever the statement did,
    also when the statement had run and when the binding had raised
    [OverflowError]; and [close] is not reached: [self.conn] is left
    open. *)
Theorem execute_query_conn_commit_fails (f : faults) (sql : statement)
    (is_insert : bool) (fetch : option string) (m : manager) (d : db)
    (Hconnect : at_connect f = false)
    (Hcommit : at_commit f = true) :
  execute_query_conn f sql is_insert fetch m d
  = (Some Open, None,
     Return (if is_insert || truthy_str fetch then VNone else VBool false)).
Proof.
  unfold execute_query_conn, __enter__, __exit__.
  rewrite Hconnect, Hcommit.
  destruct (cursor_execute (at_execute f) sql d) as [[d' cur]|e]; reflexivity.
Qed.

Lemma execute_query_conn_commit_fails_witness :
  execute_query_conn (mk_faults false false true) (DELETE_WHERE_id (2 ^ 63))
                     false None None scenario
  = (Some Open, None, Return (VBool false)).
Proof.
  apply (execute_query_conn_commit_fails (mk_faults false false true)
           (DELETE_WHERE_id (2 ^ 63)) false None None scenario);
    reflexivity.
Defined.

Lemma ui_keeps_rows_validated_witness :
  rows_validated
    (db_rows (ui_run [OnInput (mk_form_input "Lunch" "Food" (Some 25000)
                                             (mk_date 2024 1 10) true) false;
                      OnInput (mk_form_input "" "Food" (Some 100)
                                             (mk_date 2024 1 10) true) false;
                      OnRiwayat false (Some 7) true false false]
                     fresh)).
Proof.
  apply (ui_keeps_rows_validated _ fresh). constructor.
Defined.

Lemma halaman_riwayat_hapus_witness :
  fst (halaman_riwayat false (Some 999999) true false false scenario) = scenario.
Proof.
  apply (proj2 (proj2 (halaman_riwayat_hapus 999999 false false scenario))).
  intros r Hr. vm_compute in Hr.
  apply elem_of_cons in Hr as [->|Hr]; [vm_compute; discriminate|].
  apply elem_of_cons in Hr as [->|Hr]; [vm_compute; discriminate|].
  inversion Hr.
Defined.

Example halaman_riwayat_hapus_absent :
  halaman_riwayat false (Some 999999) true false false scenario
  = (scenario,
     [Table [mk_baris 2 "10-01-2024" "Bus" "Transport" "5.000";
             mk_baris 1 "10-01-2024" "Lunch" "Food" "25.000"];
      Success "Transaksi dengan ID 999999 berhasil dihapus.";
      CacheClear; Rerun]).
Proof. reflexivity. Qed.

Example halaman_input_blank_description :
  halaman_input (mk_form_input " " "Food" (Some 25000) (mk_date 2024 1 10) true)
                false fresh
  = (Some (mk_table [mk_row 1 " " 25000 "Food" "2024-01-10"] 1),
     [Success "Transaksi berhasil disimpan!"; CacheClear; Rerun]).
Proof. reflexivity. Qed.
